(** * QF635 AlgoTrade (Binance test net): signal engine, order coordinator,
      account gateway and risk controller

    A shallow embedding of [SignalGenerator.py], [OrderManagementSystem.py],
    [AccountGateWay.py] and the trading and risk loops of [Main.py].

    Numbers.  The program computes with Python floats.  They are modelled as
    exact rationals ([Q]); the non-finite values that pandas produces
    (NaN of an incomplete rolling window, [x / 0]) are written out where the
    source can produce them.  Rounding error of binary floating point is not
    modelled. *)

From Stdlib Require Import QArith Qround Qabs ZArith String Ascii List Bool Lia Lqa.
Import ListNotations.
Open Scope Q_scope.

(** ** Numbers *)

Module Numeric.

Definition Qleb (x y : Q) : bool := Qle_bool x y.
Definition Qltb (x y : Q) : bool := negb (Qle_bool y x).
Definition Qgtb (x y : Q) : bool := Qltb y x.
Definition Qgeb (x y : Q) : bool := Qleb y x.
Definition Qeqb (x y : Q) : bool := Qeq_bool x y.

(** A float as numpy/pandas produce it: finite, infinite or NaN. *)
Inductive fnum : Type :=
| Fin (q : Q)
| PInf
| NInf
| NaN.

Definition fneg (a : fnum) : fnum :=
  match a with
  | Fin q => Fin (- q)
  | PInf => NInf
  | NInf => PInf
  | NaN => NaN
  end.

Definition fadd (a b : fnum) : fnum :=
  match a, b with
  | NaN, _ | _, NaN => NaN
  | Fin x, Fin y => Fin (x + y)
  | PInf, NInf | NInf, PInf => NaN
  | PInf, _ | _, PInf => PInf
  | NInf, _ | _, NInf => NInf
  end.

Definition fsub (a b : fnum) : fnum := fadd a (fneg b).

(** numpy division: [x / 0] is an infinity of the sign of [x], [0 / 0] is
    NaN; nothing is raised. *)
Definition fdiv (a b : fnum) : fnum :=
  match a, b with
  | NaN, _ | _, NaN => NaN
  | Fin x, Fin y =>
      if Qeqb y 0 then
        (if Qeqb x 0 then NaN else if Qltb 0 x then PInf else NInf)
      else Fin (x / y)
  | Fin _, (PInf | NInf) => Fin 0
  | (PInf | NInf), (PInf | NInf) => NaN
  | PInf, Fin y => if Qleb 0 y then PInf else NInf
  | NInf, Fin y => if Qleb 0 y then NInf else PInf
  end.

(** [a >= b] and [a <= b] on floats: false as soon as one side is NaN. *)
Definition fle (a b : fnum) : bool :=
  match a, b with
  | NaN, _ | _, NaN => false
  | NInf, _ => true
  | _, PInf => true
  | Fin x, Fin y => Qleb x y
  | _, _ => false
  end.

Definition fge (a b : fnum) : bool := fle b a.

(** [a < b] and [a > b]: strict, false on NaN. *)
Definition flt (a b : fnum) : bool := fle a b && negb (fle b a).
Definition fgt (a b : fnum) : bool := flt b a.

(** A float that may be NaN and is never infinite. *)
Definition of_option (o : option Q) : fnum :=
  match o with
  | Some q => Fin q
  | None => NaN
  end.

(** Python's [round(x, ndigits)]: to the nearest multiple of
    [10^-ndigits], a tie going to the even one. *)
Definition round_half_even (y : Q) : Z :=
  let f := Qfloor y in
  let r := y - inject_Z f in
  if Qltb r (1 # 2) then f
  else if Qltb (1 # 2) r then (f + 1)%Z
  else if Z.even f then f else (f + 1)%Z.

Definition py_round (x : Q) (ndigits : nat) : Q :=
  let scale := inject_Z (10 ^ Z.of_nat ndigits) in
  Qred (inject_Z (round_half_even (x * scale)) / scale).

End Numeric.
Import Numeric.

(** ** The pandas operations the signal engine uses *)

Module Pandas.

(** A float column: [None] is NaN. *)
Definition Series := list (option Q).

Definition iloc_last {A : Type} (s : list A) : option A :=
  match rev s with
  | [] => None
  | x :: _ => Some x
  end.

Definition lastn {A : Type} (n : nat) (l : list A) : list A :=
  skipn (length l - n) l.

Definition Qsum (l : list Q) : Q := fold_right Qplus 0 l.

(** [Series.diff()]: NaN first, then the difference to the previous row. *)
Fixpoint diff_from (prev : Q) (l : list Q) : Series :=
  match l with
  | [] => []
  | x :: tl => Some (x - prev) :: diff_from x tl
  end.

Definition diff (l : list Q) : Series :=
  match l with
  | [] => []
  | x :: tl => None :: diff_from x tl
  end.

(** [s.where(cond, 0)] with [cond] a comparison of [s] itself: a NaN row
    fails the comparison and becomes 0. *)
Definition where_ (cond : Q -> bool) (s : Series) : list Q :=
  map (fun d => match d with
                | Some x => if cond x then x else 0
                | None => 0
                end) s.

(** [Series.cumsum()]. *)
Fixpoint cumsum_from (acc : Q) (l : list Q) : list Q :=
  match l with
  | [] => []
  | x :: tl => (acc + x) :: cumsum_from (acc + x) tl
  end.

Definition cumsum (l : list Q) : list Q := cumsum_from 0 l.

(** The value of [rolling(window, min_periods).mean()] at the last row of
    [prefix]: NaN when the window holds fewer than [min_periods] rows. *)
Definition window_mean (window min_periods : nat) (prefix : list Q) : option Q :=
  let w := lastn window prefix in
  if (length w <? min_periods)%nat then None
  else Some (Qsum w / inject_Z (Z.of_nat (length w))).

(** [s.rolling(window, min_periods).mean()], one value per row. *)
Definition rolling_mean (window min_periods : nat) (l : list Q) : Series :=
  map (fun i => window_mean window min_periods (firstn (S i) l))
      (seq 0 (length l)).

(** The same over a column that may hold NaN: a row of the window that is
    NaN does not count towards [min_periods] and is left out of the mean. *)
Definition somes (s : Series) : list Q :=
  flat_map (fun o => match o with Some x => [x] | None => [] end) s.

Definition window_mean_nan (window min_periods : nat) (prefix : Series) : option Q :=
  let w := somes (lastn window prefix) in
  if (length w <? min_periods)%nat then None
  else Some (Qsum w / inject_Z (Z.of_nat (length w))).

Definition rolling_mean_nan (window min_periods : nat) (s : Series) : Series :=
  map (fun i => window_mean_nan window min_periods (firstn (S i) s))
      (seq 0 (length s)).

End Pandas.
Import Pandas.

(** ** Python results *)

Module Py.

Inductive Exn : Type :=
| IndexError
| TypeError
| AttributeError
| ZeroDivisionError
| OverflowError
| ValueError
| BinanceAPIException (code : Z).

(** What a call gives back: a value, or an exception on its way up. *)
Inductive Result (A : Type) : Type :=
| Ok (a : A)
| Raise (e : Exn).
Arguments Ok {A} a.
Arguments Raise {A} e.

Definition rbind {A B : Type} (r : Result A) (k : A -> Result B) : Result B :=
  match r with
  | Ok a => k a
  | Raise e => Raise e
  end.

(** [s.iloc[-1]]: IndexError on an empty column. *)
Definition iloc_m1 {A : Type} (s : list A) : Result A :=
  match iloc_last s with
  | Some x => Ok x
  | None => Raise IndexError
  end.

(** [str.upper()] on ASCII text. *)
Definition upper_ascii (c : ascii) : ascii :=
  let n := nat_of_ascii c in
  if ((97 <=? n) && (n <=? 122))%nat then ascii_of_nat (n - 32) else c.

Fixpoint upper (s : string) : string :=
  match s with
  | EmptyString => EmptyString
  | String c tl => String (upper_ascii c) (upper tl)
  end.

End Py.
Import Py.

(** ** SignalGenerator.py *)

Module SignalGenerator.

(** A row of the candle frame; of its twelve columns the signal engine reads
    [Close] and [Volume]. *)
Record Candle : Type := mkCandle {
  Close : Q;
  Volume : Q
}.

Definition base_quantity : Q := 1 # 10.     (* 0.1 *)
Definition double_quantity : Q := 2 # 10.   (* 0.2 *)

Record t : Type := mk {
  candles : list Candle;
  order_queue : list (string * Q);   (* queue.Queue, oldest first *)
  side : option string;
  quantity : Q
}.

(** [SignalGenerator(candles)] *)
Definition init (c : list Candle) : t :=
  {| candles := c; order_queue := []; side := None; quantity := 0 |}.

Definition closes (self : t) : list Q := map Close (candles self).
Definition volumes (self : t) : list Q := map Volume (candles self).

Fixpoint map2 {A B C : Type} (f : A -> B -> C) (l1 : list A) (l2 : list B) : list C :=
  match l1, l2 with
  | a :: t1, b :: t2 => f a b :: map2 f t1 t2
  | _, _ => []
  end.

(** The whole RSI column of [calculate_rsi]. *)
Definition rsi_series (self : t) (period : nat) : list fnum :=
  let delta := diff (closes self) in
  let gain := where_ (fun d => Qgtb d 0) delta in
  let loss := map Qopp (where_ (fun d => Qltb d 0) delta) in
  let avg_gain := rolling_mean period 1 gain in
  let avg_loss := rolling_mean period 1 loss in
  let rs := map2 (fun g l => fdiv (of_option g) (of_option l)) avg_gain avg_loss in
  map (fun r => fsub (Fin 100) (fdiv (Fin 100) (fadd (Fin 1) r))) rs.

Definition calculate_rsi (self : t) (period : nat) : Result fnum :=
  iloc_m1 (rsi_series self period).

Definition signal_rsi (self : t) : Result (option string) :=
  rbind (calculate_rsi self 14) (fun rsi =>
    if fge rsi (Fin 75) then Ok (Some "SELL"%string)
    else if fle rsi (Fin 25) then Ok (Some "BUY"%string)
    else Ok None).

(** Column [SMA20]. *)
Definition SMA20 (self : t) : Series := rolling_mean 20 20 (closes self).

Definition signal_simple_ma (self : t) : Result (option string) :=
  rbind (iloc_m1 (closes self)) (fun close_ =>
  rbind (iloc_m1 (SMA20 self)) (fun sma =>
    if fgt (Fin close_) (of_option sma) then Ok (Some "BUY"%string)
    else Ok (Some "SELL"%string))).

(** The four columns [calculate_vwap] adds to the frame. *)
Definition Cumulative_Volume (self : t) : list Q := cumsum (volumes self).

Definition Cumulative_Price_Volume (self : t) : list Q :=
  cumsum (map2 Qmult (closes self) (volumes self)).

Definition VWAP (self : t) : list fnum :=
  map2 (fun pv v => fdiv (Fin pv) (Fin v))
       (Cumulative_Price_Volume self) (Cumulative_Volume self).

Definition VWAP_SMA5 (self : t) : Series := rolling_mean 5 5 (closes self).

Definition signal_vwap (self : t) : Result (option string) :=
  rbind (iloc_m1 (closes self)) (fun current_price =>
  rbind (iloc_m1 (VWAP_SMA5 self)) (fun current_vwap =>
    if flt (Fin current_price) (of_option current_vwap) then Ok (Some "BUY"%string)
    else if fgt (Fin current_price) (of_option current_vwap) then Ok (Some "SELL"%string)
    else Ok None)).

(** [self.order_queue.put(item)] *)
Definition put (item : string * Q) (self : t) : t :=
  {| candles := candles self;
     order_queue := order_queue self ++ [item];
     side := side self;
     quantity := quantity self |}.

(** Lines 80 to 92 of [evaluate_signals]: what is queued for a pair of
    moving-average and VWAP signals. *)
Definition combine (ma_signal vwap_signal : option string) (self : t) : t :=
  match ma_signal, vwap_signal with
  | Some ma, Some vw =>
      if negb (String.eqb ma vw) then put (vw, base_quantity) self
      else put (ma, double_quantity) self
  | Some ma, None => put (ma, base_quantity) self
  | None, Some vw => put (vw, base_quantity) self
  | None, None => self
  end.

Definition evaluate_signals (self : t) : Result t :=
  if (length (candles self) <? 60)%nat then Ok self
  else
    rbind (signal_rsi self) (fun rsi_signal =>
      match rsi_signal with
      | Some s => Ok (put (s, base_quantity) self)
      | None =>
          rbind (signal_simple_ma self) (fun ma_signal =>
          rbind (signal_vwap self) (fun vwap_signal =>
            Ok (combine ma_signal vwap_signal self)))
      end).

(** [generate_signal]: takes the oldest queued pair; [None] when the queue
    is empty, where [Queue.get()] blocks for good. *)
Definition generate_signal (self : t) : option ((string * Q) * t) :=
  match order_queue self with
  | [] => None
  | (s, q) :: rest =>
      Some ((s, q), {| candles := candles self; order_queue := rest;
                       side := Some s; quantity := q |})
  end.

End SignalGenerator.

(** ** The exchange and the program's effects *)

Module Runtime.

(** Modelled from the spec: [common/interface_book.py] is not among the
    sources; of the order book the program reads the touch through
    [get_best_bid()] and [get_best_ask()], the spec's top-of-book
    bid and ask prices. *)
Record OrderBook : Type := mkBook {
  get_best_bid : Q;
  get_best_ask : Q
}.

(** The fields the program reads of an order dictionary of the exchange. *)
Record Order : Type := mkOrder {
  orderId : Z;
  status : string
}.

(** The keyword arguments of [futures_create_order]. *)
Record OrderParams : Type := mkParams {
  p_symbol : string;
  p_side : string;
  p_type : string;
  p_timeInForce : option string;
  p_price : option Q;
  p_quantity : Q
}.

Inductive Request : Type :=
| futures_get_open_orders (symbol : string)
| futures_cancel_order (symbol : string) (order_id : Z)
| futures_create_order (params : OrderParams)
| get_klines.

Inductive Level : Type := INFO | WARNING | ERROR | EXCEPTION.

(** What a run leaves behind, in order. *)
Inductive Event : Type :=
| Call (r : Request)
| Log (level : Level) (msg : string)
| FileAppend (filename : string)
| Sleep (seconds : nat).

Definition Trace := list Event.

(** The world outside the program: what the exchange answers to a request
    and what the other threads have left in the shared variables, both as a
    function of what has happened so far. *)
Record Env : Type := mkEnv {
  open_orders_reply : Trace -> string -> Result (list Order);
  cancel_reply : Trace -> string -> Z -> Result Order;
  create_reply : Trace -> OrderParams -> Result Order;
  klines_reply : Trace -> Result (list SignalGenerator.Candle);
  global_position : Trace -> Q;
  order_book : Trace -> option OrderBook
}.

(** A call returns, raises, or never comes back. *)
Inductive Outcome (A : Type) : Type :=
| Val (a : A)
| Exc (e : Exn)
| Hang.
Arguments Val {A} a.
Arguments Exc {A} e.
Arguments Hang {A}.

Definition M (A : Type) : Type := Env -> Trace -> Outcome A * Trace.

Definition ret {A : Type} (a : A) : M A := fun _ tr => (Val a, tr).

Definition bind {A B : Type} (m : M A) (k : A -> M B) : M B :=
  fun env tr =>
    match m env tr with
    | (Val a, tr') => k a env tr'
    | (Exc e, tr') => (Exc e, tr')
    | (Hang, tr') => (Hang, tr')
    end.

Definition raise {A : Type} (e : Exn) : M A := fun _ tr => (Exc e, tr).

Definition hang {A : Type} : M A := fun _ tr => (Hang, tr).

(** [try: body / except Exception as e: handler e] *)
Definition try_except {A : Type} (body : M A) (handler : Exn -> M A) : M A :=
  fun env tr =>
    match body env tr with
    | (Exc e, tr') => handler e env tr'
    | r => r
    end.

Definition emit (e : Event) : M unit := fun _ tr => (Val tt, tr ++ [e]).

Definition logging (level : Level) (msg : string) : M unit := emit (Log level msg).

Definition sleep (seconds : nat) : M unit := emit (Sleep seconds).

(** A request to the exchange: it is on the trace whether it is answered
    or refused. *)
Definition request {A : Type} (r : Request) (reply : Env -> Trace -> Result A) : M A :=
  fun env tr =>
    match reply env tr with
    | Ok a => (Val a, tr ++ [Call r])
    | Raise e => (Exc e, tr ++ [Call r])
    end.

(** Reading a variable that another thread writes. *)
Definition observe {A : Type} (f : Env -> Trace -> A) : M A :=
  fun env tr => (Val (f env tr), tr).

Definition lift {A : Type} (r : Result A) : M A :=
  match r with
  | Ok a => ret a
  | Raise e => raise e
  end.

Fixpoint for_each {A : Type} (l : list A) (body : A -> M unit) : M unit :=
  match l with
  | [] => ret tt
  | x :: tl => bind (body x) (fun _ => for_each tl body)
  end.

Declare Scope run_scope.
Notation "x <- c1 ;; c2" := (bind c1 (fun x => c2))
  (at level 61, c1 at next level, right associativity) : run_scope.
Notation "c1 ;; c2" := (bind c1 (fun _ => c2))
  (at level 61, right associativity) : run_scope.

(** The requests of a trace, in order. *)
Definition calls (tr : Trace) : list Request :=
  flat_map (fun e => match e with Call r => [r] | _ => [] end) tr.

Definition logs (tr : Trace) : list (Level * string) :=
  flat_map (fun e => match e with Log l m => [(l, m)] | _ => [] end) tr.

End Runtime.
Import Runtime.
Open Scope run_scope.

(** ** OrderManagementSystem.py *)

Module OrderManagementSystem.

Record t : Type := mk {
  symbol : string;
  async_client : bool;        (* false: still None, [async_init] not run *)
  tick_size : Q;
  price_precision : Z;
  quantity_precision : Z
}.

(** An entry of a symbol's [filters] in the exchange information. *)
Inductive Filter : Type :=
| PRICE_FILTER (tickSize : Q)
| LOT_SIZE (stepSize : Q)
| OTHER_FILTER (filterType : string).

Record SymbolInfo : Type := mkSymbolInfo {
  si_symbol : string;
  si_filters : list Filter
}.

(** The largest [k] with [10^k <= y], for [1 <= y]. *)
Fixpoint count_pow10 (fuel : nat) (y : Q) : Z :=
  match fuel with
  | O => 0%Z
  | S f => if Qleb 10 y then (1 + count_pow10 f (y / 10))%Z else 0%Z
  end.

(** [int(-np.log10(x))]: the decimal exponent, truncated towards zero.
    [log10] of zero is minus infinity and of a negative number NaN, which
    [int] refuses. *)
Definition precision_of (x : Q) : Result Z :=
  let fuel := (Pos.size_nat (Qden x) + Z.to_nat (Z.log2 (Qnum x)) + 1)%nat in
  if Qeqb x 0 then Raise OverflowError
  else if Qltb x 0 then Raise ValueError
  else if Qleb x 1 then Ok (count_pow10 fuel (/ x))
  else Ok (- count_pow10 fuel x)%Z.

Definition load_filter (self : t) (f : Filter) : Result t :=
  match f with
  | PRICE_FILTER tickSize =>
      rbind (precision_of tickSize) (fun p =>
        Ok {| symbol := symbol self; async_client := async_client self;
              tick_size := tickSize; price_precision := p;
              quantity_precision := quantity_precision self |})
  | LOT_SIZE stepSize =>
      rbind (precision_of stepSize) (fun p =>
        Ok {| symbol := symbol self; async_client := async_client self;
              tick_size := tick_size self; price_precision := price_precision self;
              quantity_precision := p |})
  | OTHER_FILTER _ => Ok self
  end.

Fixpoint load_filters (self : t) (fs : list Filter) : Result t :=
  match fs with
  | [] => Ok self
  | f :: tl => rbind (load_filter self f) (fun self' => load_filters self' tl)
  end.

(** [load_exchange_info], on the answer of [futures_exchange_info()]. *)
Fixpoint load_exchange_info (self : t) (info : list SymbolInfo) : Result t :=
  match info with
  | [] => Ok self
  | symbol_info :: tl =>
      rbind (if String.eqb (si_symbol symbol_info) (symbol self)
             then load_filters self (si_filters symbol_info)
             else Ok self)
            (fun self' => load_exchange_info self' tl)
  end.

(** [OrderManagementSystem(symbol, ...)] *)
Definition init (symbol_ : string) (info : list SymbolInfo) : Result t :=
  load_exchange_info
    {| symbol := symbol_; async_client := false; tick_size := 1 # 100;
       price_precision := 8; quantity_precision := 8 |}
    info.

(** [async_init] *)
Definition async_init (self : t) : t :=
  {| symbol := symbol self; async_client := true; tick_size := tick_size self;
     price_precision := price_precision self;
     quantity_precision := quantity_precision self |}.

Definition log_trade_info (filename : string) : M unit :=
  emit (FileAppend filename) ;;
  sleep 10.

(** The parameters [place_limit_order] sends. *)
Definition limit_order_params (self : t) (symbol_ : string) (price quantity : Q)
    (side : string) : OrderParams :=
  {| p_symbol := symbol_;
     p_side := upper side;
     p_type := "LIMIT";
     p_timeInForce := Some "GTC"%string;
     p_price := Some (py_round price 2);
     p_quantity := py_round quantity 1 |}.

Definition place_limit_order (self : t) (symbol_ : string) (price quantity : Q)
    (side : string) : M (option Order) :=
  let order_params := limit_order_params self symbol_ price quantity side in
  try_except
    (order <- request (futures_create_order order_params)
                      (fun env tr => create_reply env tr order_params) ;;
     logging INFO "Placed limit order" ;;
     log_trade_info "TradesInfo.txt" ;;
     ret (Some order))
    (fun e =>
     logging EXCEPTION "Failed to place limit order" ;;
     ret None).

Definition market_order_params (symbol_ : string) (quantity : Q) (side : string)
    : OrderParams :=
  {| p_symbol := symbol_;
     p_side := upper side;
     p_type := "MARKET";
     p_timeInForce := None;
     p_price := None;
     p_quantity := quantity |}.

Definition place_market_order (self : t) (symbol_ : string) (quantity : Q)
    (side : string) : M (option Order) :=
  let order_params := market_order_params symbol_ quantity side in
  try_except
    (order <- (if async_client self
               then request (futures_create_order order_params)
                            (fun env tr => create_reply env tr order_params)
               else raise AttributeError) ;;
     logging INFO "Placed market order" ;;
     ret (Some order))
    (fun e =>
     logging EXCEPTION "Failed to place market order" ;;
     ret None).

Definition cancel_order (self : t) (symbol_ : string) (order_id : Z) : M (option Order) :=
  try_except
    (response <- request (futures_cancel_order symbol_ order_id)
                         (fun env tr => cancel_reply env tr symbol_ order_id) ;;
     logging INFO "Cancelled order" ;;
     ret (Some response))
    (fun e =>
     logging EXCEPTION "Failed to cancel order" ;;
     ret None).

Definition cancel_all_open_orders (self : t) (symbol_ : string) : M bool :=
  try_except
    (open_orders <- request (futures_get_open_orders symbol_)
                            (fun env tr => open_orders_reply env tr symbol_) ;;
     match open_orders with
     | [] =>
         logging INFO "No Open orders currently" ;;
         ret false
     | _ =>
         for_each open_orders (fun order =>
           response <- cancel_order self symbol_ (orderId order) ;;
           log_trade_info "TradesInfo.txt") ;;
         ret true
     end)
    (fun e =>
     logging EXCEPTION "Failed to fetch or cancel open orders" ;;
     ret false).

Definition place_limit_order_with_cancellation (self : t) (symbol_ : string)
    (price quantity : Q) (side : string) : M (option Order) :=
  cancelled <- cancel_all_open_orders self symbol_ ;;
  if cancelled : bool then
    logging INFO "All open orders have been canceled." ;;
    response <- place_limit_order self symbol_ price quantity side ;;
    sleep 5 ;;
    ret response
  else
    response <- place_limit_order self symbol_ price quantity side ;;
    sleep 5 ;;
    ret response.

Definition place_market_order_with_cancellation (self : t) (symbol_ : string)
    (quantity : Q) (side : string) : M (option Order) :=
  cancelled <- cancel_all_open_orders self symbol_ ;;
  if cancelled : bool then
    logging INFO "All open orders have been canceled." ;;
    response <- place_market_order self symbol_ quantity side ;;
    sleep 1 ;;
    ret response
  else
    response <- place_market_order self symbol_ quantity side ;;
    sleep 1 ;;
    ret response.

End OrderManagementSystem.

(** ** AccountGateWay.py: connecting and the keepalive job *)

Module AccountGateWay.

(** A job of the [schedule] module: [schedule.every(n).<unit>.do(f)]. *)
Inductive TimeUnit : Type := seconds | minutes | hours.

Inductive JobFunc : Type :=
| extend_listen_key_method.      (* the bound method [self._extend_listen_key] *)

Record Job : Type := mkJob {
  every : nat;
  unit_ : TimeUnit;
  job_func : JobFunc
}.

(** The jobs of the default scheduler of [schedule]. *)
Definition Scheduler := list Job.

Record t : Type := mk {
  client : bool;              (* false: None *)
  async_client : bool;
  loop_thread_started : bool;
  realized_pnl : Q
}.

(** [BinanceAccount(api_key, api_secret)] *)
Definition init : t :=
  {| client := false; async_client := false; loop_thread_started := false;
     realized_pnl := 0 |}.

(** [connect]; building the two clients is taken to succeed. *)
Definition connect (self : t) (schedule : Scheduler) : M (t * Scheduler) :=
  logging INFO "Initializing connection" ;;
  logging INFO "Reconnecting websocket" ;;
  logging INFO "Starting event loop thread" ;;
  ret ({| client := true; async_client := true; loop_thread_started := true;
          realized_pnl := realized_pnl self |},
       schedule ++ [ {| every := 15; unit_ := minutes;
                        job_func := extend_listen_key_method |} ]).

(** [_extend_listen_key]: its body is [pass]. *)
Definition extend_listen_key (self : t) : M unit := ret tt.

(** One firing of a job: the call of its function. *)
Definition run_job (self : t) (j : Job) : M unit :=
  match job_func j with
  | extend_listen_key_method => extend_listen_key self
  end.

(** The job fired [n] times in a row. *)
Fixpoint run_job_times (n : nat) (self : t) (j : Job) : M unit :=
  match n with
  | O => ret tt
  | S k => run_job self j ;; run_job_times k self j
  end.

End AccountGateWay.

(** ** Main.py: the risk controller *)

Module RiskManagement.

Module OMS := OrderManagementSystem.

Record t : Type := mk {
  symbol : string;
  take_profit_pnl : Q;
  max_pnl : Q;
  max_notional_portfolio : Q;
  max_direct_loss : Q;
  max_draw_down : Q;
  risk_flag : bool;
  order_manager : OMS.t
}.

(** [RiskManagement(symbol, ..., order_manager, max_direct_loss,
    max_notional_portfolio, max_draw_down)] *)
Definition init (symbol_ : string) (order_manager_ : OMS.t)
    (max_direct_loss_ max_notional_portfolio_ max_draw_down_ : Q) : t :=
  {| symbol := symbol_; take_profit_pnl := 50; max_pnl := 0;
     max_notional_portfolio := max_notional_portfolio_;
     max_direct_loss := max_direct_loss_;
     max_draw_down := max_draw_down_;
     risk_flag := true;
     order_manager := order_manager_ |}.

(** The constructor with the default thresholds, as [__main__] calls it. *)
Definition init_default (symbol_ : string) (order_manager_ : OMS.t) : t :=
  init symbol_ order_manager_ (5 # 100) 10000 (4 # 10).

Definition set_max_pnl (self : t) (v : Q) : t :=
  {| symbol := symbol self; take_profit_pnl := take_profit_pnl self; max_pnl := v;
     max_notional_portfolio := max_notional_portfolio self;
     max_direct_loss := max_direct_loss self; max_draw_down := max_draw_down self;
     risk_flag := risk_flag self; order_manager := order_manager self |}.

Definition set_risk_flag (self : t) (b : bool) : t :=
  {| symbol := symbol self; take_profit_pnl := take_profit_pnl self;
     max_pnl := max_pnl self;
     max_notional_portfolio := max_notional_portfolio self;
     max_direct_loss := max_direct_loss self; max_draw_down := max_draw_down self;
     risk_flag := b; order_manager := order_manager self |}.

(** [response['status'] == s]; a [None] response cannot be subscripted. *)
Definition status_is (response : option Order) (s : string) : M bool :=
  match response with
  | None => raise TypeError
  | Some o => ret (String.eqb (status o) s)
  end.

(** [global_position], read under [position_lock]. *)
Definition read_position : M Q := observe global_position.

(** [binance_gateway.get_order_book()] *)
Definition get_order_book : M (option OrderBook) := observe order_book.

(** The [while True] of [liquidate_position]; the value is the
    [risk_flag] it leaves. *)
Fixpoint liquidate_loop (fuel : nat) (self : t) (liquid_ratio aggressive_level : Q)
    : M bool :=
  match fuel with
  | O => hang
  | S fuel' =>
      position <- read_position ;;
      if Qleb (Qabs position) (1 # 2) then
        logging INFO "Position sufficiently reduced" ;;
        ret true
      else
        book <- get_order_book ;;
        done <-
          match book with
          | Some b =>
              if Qgtb position 0 then
                let market_square_price := get_best_bid b in
                let join_price := get_best_ask b in
                let limit_square_price :=
                  join_price - aggressive_level * (- market_square_price + join_price) in
                response <- OMS.place_limit_order_with_cancellation
                              (order_manager self) (symbol self) limit_square_price
                              (Qabs position * liquid_ratio) "SELL" ;;
                logging WARNING "Risk Manager => Liquidate position" ;;
                logging WARNING "Order response" ;;
                filled <- status_is response "FILLED" ;;
                if filled : bool then
                  logging WARNING "New Position after Liquidation" ;;
                  ret true
                else ret false
              else
                let market_square_price := get_best_ask b in
                let join_price := get_best_bid b in
                let limit_square_price :=
                  join_price + aggressive_level * (market_square_price - join_price) in
                response <- OMS.place_limit_order_with_cancellation
                              (order_manager self) (symbol self) limit_square_price
                              (Qabs position * liquid_ratio) "BUY" ;;
                logging WARNING "Risk Manager => Liquidate position" ;;
                logging WARNING "Order response" ;;
                filled <- status_is response "FILLED" ;;
                if filled : bool then
                  logging WARNING "New Position after Liquidation" ;;
                  ret true
                else ret false
          | None => ret false
          end ;;
        if done : bool then ret true
        else
          sleep 1 ;;
          liquidate_loop fuel' self liquid_ratio aggressive_level
  end.

(** [liquidate_position(liquid_ratio, type, aggressive_level)] *)
Definition liquidate_position (fuel : nat) (self : t) (liquid_ratio : Q)
    (type : bool) (aggressive_level : Q) : M t :=
  logging WARNING "Risk Manager => Liquidating position" ;;
  flag <- try_except
            (if type then
               position <- read_position ;;
               let side := if Qgeb position 0 then "SELL"%string else "BUY"%string in
               OMS.place_market_order_with_cancellation
                 (order_manager self) (symbol self) (Qabs position) side ;;
               ret false
             else liquidate_loop fuel self liquid_ratio aggressive_level)
            (fun e =>
             logging ERROR "Error in liquidating position" ;;
             ret false) ;;
  ret (set_risk_flag self flag).

(** What one evaluation cycle reads of the shared state, at the places
    where it reads it.  Every liquidation is awaited, so the book and the
    realized PnL are read again after it. *)
Record CycleObs : Type := mkObs {
  obs_position : Q;               (* [global_position], line 161 *)
  obs_entryPrice : option Q;      (* the symbol's [entryPrice]; None: no row *)
  obs_book : option OrderBook;    (* [get_order_book()], lines 169 to 171 *)
  obs_realized_pnl_logged : Q;    (* [realized_pnl], lines 181 and 183 *)
  obs_book_195 : bool;            (* is there a book at line 195 *)
  obs_realized_pnl : Q;           (* [realized_pnl], lines 205 to 209 *)
  obs_book_213 : bool             (* is there a book at line 213 *)
}.

(** What one evaluation cycle does, in order. *)
Inductive Step : Type :=
| Logged (level : Level) (msg : string)
| CsvRow (position currentProfit entryPrice realized_pnl : Q)
| Liquidate (liquid_ratio : Q) (type : bool) (aggressive_level : Q).

(** [_currentProfit], lines 172 to 176. *)
Definition currentProfit (current_position entryPrice : Q) (book : OrderBook) : Q :=
  if Qgtb current_position 0
  then current_position * (- entryPrice + get_best_bid book)
  else current_position * (entryPrice - get_best_ask book).

(** Lines 191 to 193. *)
Definition notional_check (self : t) (position entryPrice : Q) : list Step :=
  if Qgtb (Qabs (position * entryPrice)) (max_notional_portfolio self)
  then [Logged WARNING "Limit Exceed. Liquidating half the position";
        Liquidate (1 # 2) false (1 # 4)]
  else [].

(** Lines 196 to 203. *)
Definition open_profit_check (self : t) (position entryPrice profit : Q) : list Step :=
  if Qltb profit (- max_direct_loss self * entryPrice * Qabs position)
     && Qgtb (Qabs position) (1 # 2)
  then [Logged WARNING "Risk Manager => Open Profit is less than -4% Liquidating all the Position";
        Liquidate 1 false (1 # 4)]
  else if Qgtb profit (take_profit_pnl self)
  then [Logged WARNING "Current Profit is greater than Max Profit. Booking half the profit";
        Liquidate (1 # 2) false (1 # 4)]
  else [].

(** Lines 205 and 206. *)
Definition track_peak (self : t) (realized_pnl : Q) : t :=
  if Qleb (max_pnl self) realized_pnl then set_max_pnl self realized_pnl else self.

(** Lines 208 to 211, after the peak is updated. *)
Definition drawdown_check (self : t) (realized_pnl : Q) : Result (list Step) :=
  if Qgtb realized_pnl 100 then
    if Qeqb (max_pnl self) 0 then Raise ZeroDivisionError
    else if Qleb (realized_pnl / max_pnl self) (1 - max_draw_down self)
    then Ok [Logged WARNING "Max Drawdown exceed 0.3, liquidating half position";
             Liquidate (1 # 2) false (1 # 4)]
    else Ok []
  else Ok [].

(** Lines 213 to 217. *)
Definition wide_stop_check (self : t) (position entryPrice profit : Q) : list Step :=
  if Qltb profit (- max_direct_loss self * 3 * entryPrice * Qabs position)
  then [Logged WARNING "Risk Manager => Open Profit is less than -8% Liquidating all at market ";
        Liquidate 1 false (1 # 2)]
  else [].

Definition error_applying : Step := Logged ERROR "Error applying risk management".

(** [apply_risk_management_open_position_and_portfolio]: the controller
    after the cycle and what the cycle did. *)
Definition apply_risk_management_open_position_and_portfolio (self : t) (o : CycleObs)
    : t * list Step :=
  let current_position := obs_position o in
  let start := [Logged INFO "Risk Manager => Using global position"] in
  match obs_entryPrice o with
  | None => (self, start ++ [error_applying])
  | Some entryPrice =>
      match obs_book o with
      | None => (self, start)
      | Some book =>
          let profit := currentProfit current_position entryPrice book in
          let s1 := start
                    ++ [Logged INFO "Risk Manager => Position | Current Profit | Entry Price, Realized Pnl";
                        CsvRow current_position profit entryPrice (obs_realized_pnl_logged o)]
                    ++ notional_check self current_position entryPrice in
          if obs_book_195 o then
            let s2 := s1 ++ open_profit_check self current_position entryPrice profit in
            let self' := track_peak self (obs_realized_pnl o) in
            match drawdown_check self' (obs_realized_pnl o) with
            | Raise _ => (self', s2 ++ [error_applying])
            | Ok dd =>
                let s3 := s2 ++ dd in
                if obs_book_213 o
                then (self', s3 ++ wide_stop_check self' current_position entryPrice profit)
                else (self', s3)
            end
          else (self, s1)
      end
  end.

End RiskManagement.

(** ** Main.py: the trading loop *)

Module Main.

Module OMS := OrderManagementSystem.
Module SG := SignalGenerator.
Import RiskManagement.

(** How a turn of a [while] loop ends. *)
Inductive Flow : Type := Break | Continue.

(** [binance_gateway.get_order_book().get_best_bid()]: without a book the
    attribute access fails. *)
Definition book_best_bid : M Q :=
  book <- get_order_book ;;
  match book with
  | Some b => ret (get_best_bid b)
  | None => raise AttributeError
  end.

Definition book_best_ask : M Q :=
  book <- get_order_book ;;
  match book with
  | Some b => ret (get_best_ask b)
  | None => raise AttributeError
  end.

(** The body of the inner [while binance_gateway.get_order_book():],
    lines 69 to 120. *)
Definition trading_pass (order_manager : OMS.t) (symbol_ side : string)
    (quantity max_limit_single_pair : Q) : M Flow :=
  current_position <- read_position ;;
  if Qgeb current_position max_limit_single_pair then
    price <- book_best_ask ;;
    response <-
      (if String.eqb side "SELL" then
         logging INFO "Exceed Limit, only reduce order is allowed" ;;
         OMS.place_limit_order_with_cancellation order_manager symbol_ price quantity side
       else
         logging WARNING "Exceed Limit, proactive reduce Long" ;;
         let new_qty :=
           py_round (Qabs (current_position - max_limit_single_pair) + (3 # 10)) 1 in
         OMS.place_limit_order_with_cancellation order_manager symbol_ (price - 1)
           new_qty "SELL") ;;
    filled <- status_is response "FILLED" ;;
    if filled : bool then
      logging INFO "Exceeding the limit. revised back to limit" ;;
      ret Break
    else ret Continue
  else if Qleb current_position (- max_limit_single_pair) then
    price <- book_best_bid ;;
    response <-
      (if String.eqb side "BUY" then
         logging INFO "Exceed Limit, only reduce order is allowed" ;;
         OMS.place_limit_order_with_cancellation order_manager symbol_ price quantity side
       else
         logging WARNING "Exceed Limit, proactive reduce Short" ;;
         let new_qty :=
           py_round (Qabs (current_position + max_limit_single_pair) + (3 # 10)) 1 in
         OMS.place_limit_order_with_cancellation order_manager symbol_ (price + 1)
           new_qty "BUY") ;;
    filled <- status_is response "FILLED" ;;
    if filled : bool then
      logging INFO "Exceeding the limit. revised back to limit" ;;
      ret Break
    else ret Continue
  else
    logging INFO "Pre-trade check done." ;;
    if String.eqb side "BUY" then
      price <- book_best_bid ;;
      response <- OMS.place_limit_order_with_cancellation order_manager symbol_
                    (price + 1) quantity side ;;
      filled <- status_is response "FILLED" ;;
      ret (if filled : bool then Break else Continue)
    else if String.eqb side "SELL" then
      price <- book_best_ask ;;
      response <- OMS.place_limit_order_with_cancellation order_manager symbol_
                    (price - 1) quantity side ;;
      filled <- status_is response "FILLED" ;;
      ret (if filled : bool then Break else Continue)
    else ret Continue.

(** The inner [while]: it ends when the book is gone or a turn breaks. *)
Fixpoint fill_loop (fuel : nat) (order_manager : OMS.t) (symbol_ side : string)
    (quantity max_limit_single_pair : Q) : M unit :=
  match fuel with
  | O => hang
  | S fuel' =>
      book <- get_order_book ;;
      match book with
      | None => ret tt
      | Some _ =>
          flow <- trading_pass order_manager symbol_ side quantity max_limit_single_pair ;;
          match flow with
          | Break => ret tt
          | Continue =>
              fill_loop fuel' order_manager symbol_ side quantity max_limit_single_pair
          end
      end
  end.

(** One turn of the [while True] of [trading_logic]: the [try] body and its
    [except Exception].  The candle frame is what [fetch_latest_klines]
    returns. *)
Definition trading_iteration (fuel : nat) (order_manager : OMS.t) (symbol_ : string)
    (max_limit_single_pair : Q) : M unit :=
  try_except
    (df_candle <- request get_klines klines_reply ;;
     signal_generator <- lift (SG.evaluate_signals (SG.init df_candle)) ;;
     match SG.generate_signal signal_generator with
     | None => hang
     | Some ((side, quantity), _) =>
         current_position <- read_position ;;
         logging INFO "Realized P&L, Current position" ;;
         if negb (Qeqb quantity 0)
         then fill_loop fuel order_manager symbol_ side quantity max_limit_single_pair
         else ret tt
     end)
    (fun e => logging ERROR "Error in trading logic").


End Main.

(** ** The VWAP signal as the specification words it *)

Module Specified.
Import SignalGenerator.

Definition finite (v : fnum) : option Q :=
  match v with
  | Fin q => Some q
  | _ => None
  end.

(** The 5-period smoothing of the cumulative VWAP column: the rolling mean
    over five rows of column [VWAP]. *)
Definition VWAP_smoothed (self : t) : Series :=
  rolling_mean_nan 5 5 (map finite (VWAP self)).

(** BUY if the price is below the smoothed VWAP, SELL if above, no signal
    if equal. *)
Definition signal_vwap_smoothed (self : t) : Result (option string) :=
  rbind (iloc_m1 (closes self)) (fun current_price =>
  rbind (iloc_m1 (VWAP_smoothed self)) (fun current_vwap =>
    if flt (Fin current_price) (of_option current_vwap) then Ok (Some "BUY"%string)
    else if fgt (Fin current_price) (of_option current_vwap) then Ok (Some "SELL"%string)
    else Ok None)).

End Specified.

(** ** Sample data *)

Module Samples.
Import SignalGenerator.

(** Sixty one-minute candles of volume 1 whose [i]-th close is [close_ i]. *)
Definition window (close_ : nat -> Z) : t :=
  init (map (fun i => mkCandle (inject_Z (close_ i)) 1) (seq 1 60)).

Definition rising : t := window Z.of_nat.
Definition falling : t := window (fun i => 100 - Z.of_nat i)%Z.
Definition zigzag : t := window (fun i => if Nat.even i then 100 else 101)%Z.

(** Forty-five closes at 200, then fifteen between 100 and 101, the last
    at 101. *)
Definition slump : t :=
  window (fun i => if (i <=? 45)%nat then 200
                   else if Nat.even i then 101 else 100)%Z.

(** The same closes as [slump], traded in other volumes. *)
Definition slump_thin : t :=
  init (map (fun c => mkCandle (Close c) (Close c / 100)) (candles slump)).

End Samples.

(** ** What a call of [evaluate_signals] queues *)

Module Queued.
Import SignalGenerator.

(** What [evaluate_signals] queues, case by case. *)
Inductive queued (self : t) : list (string * Q) -> Prop :=
| queued_short :
    (length (candles self) < 60)%nat -> queued self []
| queued_rsi s :
    (60 <= length (candles self))%nat ->
    signal_rsi self = Ok (Some s) ->
    queued self [(s, base_quantity)]
| queued_contradict ma vw :
    (60 <= length (candles self))%nat ->
    signal_rsi self = Ok None ->
    signal_simple_ma self = Ok (Some ma) ->
    signal_vwap self = Ok (Some vw) ->
    ma <> vw ->
    queued self [(vw, base_quantity)]
| queued_agree s :
    (60 <= length (candles self))%nat ->
    signal_rsi self = Ok None ->
    signal_simple_ma self = Ok (Some s) ->
    signal_vwap self = Ok (Some s) ->
    queued self [(s, double_quantity)]
| queued_ma_only ma :
    (60 <= length (candles self))%nat ->
    signal_rsi self = Ok None ->
    signal_simple_ma self = Ok (Some ma) ->
    signal_vwap self = Ok None ->
    queued self [(ma, base_quantity)].

Definition enqueue (new : list (string * Q)) (self : t) : t :=
  {| candles := candles self; order_queue := order_queue self ++ new;
     side := side self; quantity := quantity self |}.

End Queued.

(** ** Sample risk cycles *)

Module RiskSamples.
Import RiskManagement.

Definition oms : OrderManagementSystem.t :=
  {| OrderManagementSystem.symbol := "ETHUSDT";
     OrderManagementSystem.async_client := false;
     OrderManagementSystem.tick_size := 1 # 100;
     OrderManagementSystem.price_precision := 2;
     OrderManagementSystem.quantity_precision := 3 |}.

(** The controller of [__main__] (maximal drawdown 0.4) once realized PnL
    has peaked at 200. *)
Definition peaked_200 : t := set_max_pnl (init_default "ETHUSDT" oms) 200.

(** A cycle holding one unit bought at 3000 with the book at 3000 / 3001
    throughout and realized PnL [realized]. *)
Definition calm (realized : Q) : CycleObs :=
  {| obs_position := 1;
     obs_entryPrice := Some 3000;
     obs_book := Some {| get_best_bid := 3000; get_best_ask := 3001 |};
     obs_realized_pnl_logged := realized;
     obs_book_195 := true;
     obs_realized_pnl := realized;
     obs_book_213 := true |}.

Definition drawdown_warning : Step :=
  Logged WARNING "Max Drawdown exceed 0.3, liquidating half position".

End RiskSamples.

(** ** Sample exchanges *)

Module ExchangeSamples.
Module OMS := OrderManagementSystem.

(** Exchange information with the filters of two perpetual contracts. *)
Definition exchange_info : list OMS.SymbolInfo :=
  [ {| OMS.si_symbol := "BTCUSDT";
       OMS.si_filters := [OMS.PRICE_FILTER (1 # 10); OMS.LOT_SIZE (1 # 1000)] |};
    {| OMS.si_symbol := "ETHUSDT";
       OMS.si_filters := [OMS.PRICE_FILTER (1 # 100); OMS.LOT_SIZE (1 # 1000);
                          OMS.OTHER_FILTER "MIN_NOTIONAL"] |} ].

Definition touch : OrderBook := {| get_best_bid := 3000; get_best_ask := 3001 |}.

(** An exchange that reports [opens] as the open orders, acknowledges every
    cancel and answers every new order with [created]; the position is
    [position] and the book is at [touch]. *)
Definition exchange (opens : Result (list Order)) (created : Result Order)
    (position : Q) : Env :=
  {| open_orders_reply := fun _ _ => opens;
     cancel_reply := fun _ _ order_id =>
                       Ok {| orderId := order_id; status := "CANCELED" |};
     create_reply := fun _ _ => created;
     klines_reply := fun _ => Ok (SignalGenerator.candles Samples.slump);
     global_position := fun _ => position;
     order_book := fun _ => Some touch |}.

(** The open orders a query at trace [tr] reports; none when it fails. *)
Definition reported (env : Env) (tr : Trace) (symbol_ : string) : list Order :=
  match open_orders_reply env tr symbol_ with
  | Ok l => l
  | Raise _ => []
  end.


Definition resting : list Order :=
  [ {| orderId := 11; status := "NEW" |}; {| orderId := 12; status := "NEW" |} ].

Definition accepted : Result Order := Ok {| orderId := 13; status := "NEW" |}.


(** The same exchange, refusing every cancel. *)
Definition stubborn (opens : Result (list Order)) (created : Result Order)
    (position : Q) : Env :=
  {| open_orders_reply := fun _ _ => opens;
     cancel_reply := fun _ _ _ => Raise (BinanceAPIException (-2011));
     create_reply := fun _ _ => created;
     klines_reply := fun _ => Ok (SignalGenerator.candles Samples.slump);
     global_position := fun _ => position;
     order_book := fun _ => Some touch |}.

End ExchangeSamples.

(** ** Measures of a trace *)

Module Measures.

(** The seconds a run has spent in [asyncio.sleep]. *)
Definition slept (tr : Trace) : nat :=
  fold_right (fun e acc => match e with Sleep n => (n + acc)%nat | _ => acc end) 0%nat tr.

(** The new orders among the requests of a trace. *)
Definition created (tr : Trace) : list OrderParams :=
  flat_map (fun e => match e with
                     | Call (futures_create_order p) => [p]
                     | _ => []
                     end) tr.

End Measures.

(** ** Trends of a close column *)

Module Trends.

(** The closes [l] rise strictly, starting above [prev]. *)
Fixpoint rising_from (prev : Q) (l : list Q) : Prop :=
  match l with
  | [] => True
  | x :: tl => prev < x /\ rising_from x tl
  end.

(** The closes [l] fall strictly, starting below [prev]. *)
Fixpoint falling_from (prev : Q) (l : list Q) : Prop :=
  match l with
  | [] => True
  | x :: tl => x < prev /\ falling_from x tl
  end.

End Trends.

(** The tick or step size [10^-k]. *)
Definition decimal_step (k : nat) : Q := 1 # Z.to_pos (10 ^ Z.of_nat k).

(** ** AccountGateWay.py: the PnL feed and its callbacks *)

Module AccountFeed.

(** A cell of an object column: text that reads as a number, or other
    text. *)
Inductive Cell : Type :=
| Number (q : Q)
| Text (s : string).

(** An entry of the answer of [futures_account_balance()], by the keys the
    code reads; [None] is a missing key. *)
Record AssetInfo : Type := mkAssetInfo {
  asset : option string;
  balance : option string;
  crossUnPnl : option Cell
}.

(** A row of the frame [_parse_pnl_info] builds. *)
Record PnlRow : Type := mkPnlRow {
  row_asset : string;
  row_balance : string;
  row_pnl : Cell
}.

(** [_parse_pnl_info]; [None] stands for the KeyError of a missing
    [asset] or [balance].  A missing [crossUnPnl] becomes the text N/A. *)
Fixpoint parse_pnl_info (account_info : list AssetInfo) : option (list PnlRow) :=
  match account_info with
  | [] => Some []
  | asset_info :: tl =>
      match asset asset_info, balance asset_info with
      | Some a, Some b =>
          let crossUnpnl := match crossUnPnl asset_info with
                            | Some c => c
                            | None => Text "N/A"
                            end in
          match parse_pnl_info tl with
          | Some rows =>
              Some ({| row_asset := a; row_balance := b; row_pnl := crossUnpnl |} :: rows)
          | None => None
          end
      | _, _ => None
      end
  end.

(** [pd.to_numeric(column)]; [None] stands for the ValueError on text that
    is no number. *)
Fixpoint to_numeric (column : list Cell) : option (list Q) :=
  match column with
  | [] => Some []
  | Number q :: tl =>
      match to_numeric tl with
      | Some qs => Some (q :: qs)
      | None => None
      end
  | Text _ :: tl => None
  end.

(** [pd.to_numeric(pnl_info['pnl']).sum()]; a frame built from no row has
    no column [pnl], and [None] then stands for the KeyError. *)
Definition pnl_sum (pnl_info : list PnlRow) : option Q :=
  match pnl_info with
  | [] => None
  | _ =>
      match to_numeric (map row_pnl pnl_info) with
      | Some qs => Some (Qsum qs)
      | None => None
      end
  end.

Definition Callback : Type := list PnlRow -> M unit.

Record t : Type := mk {
  gateway : AccountGateWay.t;
  account_pnl_info : list PnlRow;
  accountpnl_callbacks : list Callback
}.

(** [add_accountpnl_callback] *)
Definition add_accountpnl_callback (self : t) (callback : Callback) : t :=
  {| gateway := gateway self;
     account_pnl_info := account_pnl_info self;
     accountpnl_callbacks := accountpnl_callbacks self ++ [callback] |}.

Definition set_account_pnl_info (self : t) (pnl_info : list PnlRow) : t :=
  {| gateway := gateway self;
     account_pnl_info := pnl_info;
     accountpnl_callbacks := accountpnl_callbacks self |}.

Definition set_realized_pnl (self : t) (v : Q) : t :=
  {| gateway := {| AccountGateWay.client := AccountGateWay.client (gateway self);
                   AccountGateWay.async_client := AccountGateWay.async_client (gateway self);
                   AccountGateWay.loop_thread_started :=
                     AccountGateWay.loop_thread_started (gateway self);
                   AccountGateWay.realized_pnl := v |};
     account_pnl_info := account_pnl_info self;
     accountpnl_callbacks := accountpnl_callbacks self |}.

Definition realized_pnl (self : t) : Q := AccountGateWay.realized_pnl (gateway self).

Definition error_fetching : M unit := logging ERROR "Error fetching account PnL data".

(** The answer in which every asset carries its three keys and a number. *)
Definition complete (entries : list (string * string * Q)) : list AssetInfo :=
  map (fun e => {| asset := Some (fst (fst e)); balance := Some (snd (fst e));
                   crossUnPnl := Some (Number (snd e)) |}) entries.

(** The rows [_parse_pnl_info] makes of such an answer. *)
Definition rows_of (entries : list (string * string * Q)) : list PnlRow :=
  map (fun e => {| row_asset := fst (fst e); row_balance := snd (fst e);
                   row_pnl := Number (snd e) |}) entries.

(** [_fetch_and_notify_pnl], on the answer [reply] of
    [futures_account_balance()]; the value is the gateway as the call
    leaves it. *)
Definition fetch_and_notify_pnl (self : t) (reply : Result (list AssetInfo)) : M t :=
  match reply with
  | Raise _ => error_fetching ;; ret self
  | Ok account_info =>
      match parse_pnl_info account_info with
      | None => error_fetching ;; ret self
      | Some pnl_info =>
          let stored := set_account_pnl_info self pnl_info in
          match pnl_sum pnl_info with
          | None => error_fetching ;; ret stored
          | Some total =>
              let updated := set_realized_pnl stored total in
              try_except
                (for_each (accountpnl_callbacks self) (fun callback => callback pnl_info) ;;
                 ret updated)
                (fun e => error_fetching ;; ret updated)
          end
      end
  end.

End AccountFeed.

(** ** Main.py: the position callback *)

Module PositionCallback.



End PositionCallback.

(** ** HistoricalCandle.py *)

Module HistoricalCandle.

(** A candle of [get_klines], its numbers already read. *)
Record Kline : Type := mkKline {
  Open_time : Z;
  Open : Q;
  High : Q;
  Low : Q;
  Close : Q;
  Volume : Q;
  Close_time : Z;
  Quote_asset_volume : Q;
  Number_of_trades : Z;
  Taker_buy_base_asset_volume : Q;
  Taker_buy_quote_asset_volume : Q;
  Ignore : string
}.

(** Two rows with the same value in every column. *)
Definition same_row (a b : Kline) : bool :=
  Z.eqb (Open_time a) (Open_time b)
  && Qeqb (Open a) (Open b) && Qeqb (High a) (High b) && Qeqb (Low a) (Low b)
  && Qeqb (Close a) (Close b) && Qeqb (Volume a) (Volume b)
  && Z.eqb (Close_time a) (Close_time b)
  && Qeqb (Quote_asset_volume a) (Quote_asset_volume b)
  && Z.eqb (Number_of_trades a) (Number_of_trades b)
  && Qeqb (Taker_buy_base_asset_volume a) (Taker_buy_base_asset_volume b)
  && Qeqb (Taker_buy_quote_asset_volume a) (Taker_buy_quote_asset_volume b)
  && String.eqb (Ignore a) (Ignore b).

(** [drop_duplicates()]: of equal rows the first stays. *)
Fixpoint drop_duplicates_from (seen : list Kline) (rows : list Kline) : list Kline :=
  match rows with
  | [] => []
  | r :: tl =>
      if existsb (same_row r) seen then drop_duplicates_from seen tl
      else r :: drop_duplicates_from (r :: seen) tl
  end.

Definition drop_duplicates (rows : list Kline) : list Kline :=
  drop_duplicates_from [] rows.

(** [df.iloc[-n:]]; [-0] is 0, so [n = 0] keeps every row. *)
Definition iloc_tail (n : nat) (rows : list Kline) : list Kline :=
  match n with
  | O => rows
  | _ => lastn n rows
  end.

(** [fetch_latest_klines], on the candles [klines] the exchange returned;
    the frame started empty, so the rows keep their order. *)
Definition fetch_latest_klines (window_size : nat) (klines : list Kline) : list Kline :=
  let df := drop_duplicates klines in
  if (window_size <? length df)%nat then iloc_tail window_size df else df.

(** No row equals a row before it. *)
Definition distinct_rows (rows : list Kline) : Prop :=
  ForallOrdPairs (fun earlier later => same_row later earlier = false) rows.

(** The columns of a row that the signal engine reads. *)
Definition candle_of (k : Kline) : SignalGenerator.Candle :=
  {| SignalGenerator.Close := Close k; SignalGenerator.Volume := Volume k |}.

End HistoricalCandle.

(** * Properties *)

(** ** Comparisons *)

Section Comparisons.

Variables x y : Q.

Lemma Qleb_iff : Qleb x y = true <-> x <= y.
Proof. apply Qle_bool_iff. Qed.

Lemma Qltb_iff : Qltb x y = true <-> x < y.
Proof.
  unfold Qltb. rewrite negb_true_iff. split; intros H.
  - apply Qnot_le_lt. intros Hle. apply Qle_bool_iff in Hle. congruence.
  - destruct (Qle_bool y x) eqn:E; [|reflexivity].
    apply Qle_bool_iff in E. exfalso. exact (Qlt_not_le _ _ H E).
Qed.

Lemma Qltb_false_iff : Qltb x y = false <-> y <= x.
Proof. unfold Qltb. rewrite negb_false_iff. apply Qle_bool_iff. Qed.

Lemma Qleb_false_iff : Qleb x y = false <-> y < x.
Proof.
  split; intros H.
  - apply Qnot_le_lt. intros Hle. apply Qleb_iff in Hle. congruence.
  - destruct (Qleb x y) eqn:E; [|reflexivity].
    apply Qleb_iff in E. exfalso. exact (Qlt_not_le _ _ H E).
Qed.

Lemma Qeqb_iff : Qeqb x y = true <-> x == y.
Proof. apply Qeq_bool_iff. Qed.

End Comparisons.

(** ** Columns *)

Section Columns.

Context {A : Type}.

Lemma iloc_m1_ok (l : list A) : l <> [] -> exists v, iloc_m1 l = Ok v.
Proof.
  intros Hne. unfold iloc_m1, iloc_last.
  destruct (rev l) as [|v tl] eqn:E.
  - exfalso. apply Hne. rewrite <- (rev_involutive l), E. reflexivity.
  - exists v. reflexivity.
Qed.

Lemma nonempty_of_length (l : list A) (n : nat) :
  (n <= length l)%nat -> (0 < n)%nat -> l <> [].
Proof. intros Hn Hpos ->. simpl in Hn. lia. Qed.

End Columns.

Lemma rolling_mean_length (window min_periods : nat) (l : list Q) :
  length (rolling_mean window min_periods l) = length l.
Proof. unfold rolling_mean. now rewrite length_map, length_seq. Qed.

Lemma diff_from_length (prev : Q) (l : list Q) : length (diff_from prev l) = length l.
Proof. revert prev. induction l as [|a l IH]; intros prev; simpl; [reflexivity|]. now rewrite IH. Qed.

Lemma diff_length (l : list Q) : length (diff l) = length l.
Proof. destruct l as [|a l]; simpl; [reflexivity|]. now rewrite diff_from_length. Qed.

Lemma where_length (cond : Q -> bool) (s : Series) : length (where_ cond s) = length s.
Proof. unfold where_. apply length_map. Qed.

Lemma map2_length {A B C : Type} (f : A -> B -> C) (l1 : list A) (l2 : list B) :
  length (SignalGenerator.map2 f l1 l2) = Nat.min (length l1) (length l2).
Proof.
  revert l2. induction l1 as [|a l1 IH]; intros [|b l2]; simpl; try reflexivity.
  now rewrite IH.
Qed.

(** ** The signal engine *)

Module SignalFacts.
Import SignalGenerator Queued.

Lemma rsi_series_length (self : t) (period : nat) :
  length (rsi_series self period) = length (candles self).
Proof.
  unfold rsi_series. rewrite length_map, map2_length, !rolling_mean_length.
  rewrite length_map, !where_length, diff_length. unfold closes.
  rewrite length_map. apply Nat.min_id.
Qed.

Lemma closes_length (self : t) : length (closes self) = length (candles self).
Proof. unfold closes. apply length_map. Qed.

Section NonEmptyFrame.

Variable self : t.
Hypothesis rows : candles self <> [].

Lemma closes_nonempty : closes self <> [].
Proof.
  intros H. apply rows. apply length_zero_iff_nil.
  rewrite <- closes_length, H. reflexivity.
Qed.

Lemma calculate_rsi_ok (period : nat) : exists rsi, calculate_rsi self period = Ok rsi.
Proof.
  apply iloc_m1_ok. intros H. apply rows. apply length_zero_iff_nil.
  rewrite <- (rsi_series_length self period), H. reflexivity.
Qed.

Lemma signal_rsi_ok : exists s, signal_rsi self = Ok s.
Proof.
  unfold signal_rsi. destruct (calculate_rsi_ok 14) as [rsi ->]. cbn [rbind].
  destruct (fge rsi (Fin 75)); [eexists; reflexivity|].
  destruct (fle rsi (Fin 25)); eexists; reflexivity.
Qed.

Lemma signal_rsi_values (s : string) :
  signal_rsi self = Ok (Some s) -> s = "BUY"%string \/ s = "SELL"%string.
Proof.
  unfold signal_rsi. destruct (calculate_rsi_ok 14) as [rsi ->]. cbn [rbind].
  destruct (fge rsi (Fin 75)); [intros [= <-]; now right|].
  destruct (fle rsi (Fin 25)); [intros [= <-]; now left|discriminate].
Qed.

Lemma signal_simple_ma_ok :
  signal_simple_ma self = Ok (Some "BUY"%string)
  \/ signal_simple_ma self = Ok (Some "SELL"%string).
Proof.
  unfold signal_simple_ma.
  destruct (iloc_m1_ok (closes self) closes_nonempty) as [c ->]. cbn [rbind].
  assert (Hs : SMA20 self <> []).
  { intros H. apply closes_nonempty. apply length_zero_iff_nil.
    unfold SMA20 in H. rewrite <- (rolling_mean_length 20 20), H. reflexivity. }
  destruct (iloc_m1_ok _ Hs) as [m ->]. cbn [rbind].
  destruct (fgt (Fin c) (of_option m)); auto.
Qed.

Lemma signal_vwap_ok :
  signal_vwap self = Ok (Some "BUY"%string)
  \/ signal_vwap self = Ok (Some "SELL"%string)
  \/ signal_vwap self = Ok None.
Proof.
  unfold signal_vwap.
  destruct (iloc_m1_ok (closes self) closes_nonempty) as [c ->]. cbn [rbind].
  assert (Hs : VWAP_SMA5 self <> []).
  { intros H. apply closes_nonempty. apply length_zero_iff_nil.
    unfold VWAP_SMA5 in H. rewrite <- (rolling_mean_length 5 5), H. reflexivity. }
  destruct (iloc_m1_ok _ Hs) as [m ->]. cbn [rbind].
  destruct (flt (Fin c) (of_option m)); auto.
  destruct (fgt (Fin c) (of_option m)); auto.
Qed.

End NonEmptyFrame.

Lemma long_frame_nonempty (self : t) : (60 <= length (candles self))%nat -> candles self <> [].
Proof. intros H. apply (nonempty_of_length _ 60); [exact H|lia]. Qed.

Lemma enqueue_nil (self : t) : enqueue [] self = self.
Proof. destruct self. unfold enqueue. simpl. now rewrite app_nil_r. Qed.

Lemma evaluate_signals_queued (self : t) :
  exists new, evaluate_signals self = Ok (enqueue new self) /\ queued self new.
Proof.
  unfold evaluate_signals.
  destruct (length (candles self) <? 60)%nat eqn:Elen.
  - exists []. rewrite enqueue_nil. split; [reflexivity|].
    apply queued_short. now apply Nat.ltb_lt.
  - apply Nat.ltb_ge in Elen. pose proof (long_frame_nonempty self Elen) as Hne.
    destruct (signal_rsi_ok self Hne) as [[s|] Hr]; rewrite Hr; cbn [rbind].
    + exists [(s, base_quantity)]. split; [reflexivity|]. now apply queued_rsi.
    + destruct (signal_simple_ma_ok self Hne) as [Hm|Hm]; rewrite Hm; cbn [rbind];
        destruct (signal_vwap_ok self Hne) as [Hv|[Hv|Hv]]; rewrite Hv; cbn [rbind combine];
        eexists; (split; [reflexivity|]);
        first [ now apply queued_agree
              | now apply queued_ma_only
              | eapply queued_contradict; eauto; discriminate ].
Qed.

End SignalFacts.

Module SignalTheorems.
Import SignalGenerator Queued SignalFacts.





Lemma queued_sides (self : t) (new : list (string * Q)) (s : string) (q : Q) :
  queued self new -> In (s, q) new -> s = "BUY"%string \/ s = "SELL"%string.
Proof.
  intros Hq Hin.
  destruct Hq as [Hlen|s' Hlen Hr|ma vw Hlen Hr Hm Hv Hne|s' Hlen Hr Hm Hv|ma Hlen Hr Hm Hv];
    simpl in Hin; try contradiction;
    destruct Hin as [[= <- <-]|[]];
    pose proof (long_frame_nonempty self Hlen) as Hrows.
  - exact (signal_rsi_values self Hrows s' Hr).
  - destruct (signal_vwap_ok self Hrows) as [E|[E|E]]; rewrite E in Hv;
      try discriminate; injection Hv as <-; auto.
  - destruct (signal_simple_ma_ok self Hrows) as [E|E]; rewrite E in Hm;
      injection Hm as <-; auto.
  - destruct (signal_simple_ma_ok self Hrows) as [E|E]; rewrite E in Hm;
      injection Hm as <-; auto.
Qed.

Lemma queued_quantities (self : t) (new : list (string * Q)) (s : string) (q : Q) :
  queued self new -> In (s, q) new ->
  (q = base_quantity \/ q = double_quantity)
  /\ (q = double_quantity ->
      signal_rsi self = Ok None
      /\ signal_simple_ma self = Ok (Some s)
      /\ signal_vwap self = Ok (Some s)).
Proof.
  intros Hq Hin.
  destruct Hq as [Hlen|s' Hlen Hr|ma vw Hlen Hr Hm Hv Hne|s' Hlen Hr Hm Hv|ma Hlen Hr Hm Hv];
    simpl in Hin; try contradiction;
    destruct Hin as [[= <- <-]|[]];
    (split; [auto|]); try discriminate.
  intros _. auto.
Qed.

Lemma queued_at_most_one (self : t) (new : list (string * Q)) :
  queued self new -> (length new <= 1)%nat.
Proof. intros Hq. destruct Hq; simpl; lia. Qed.

(** C10.  The shape of what is queued.  A call of [evaluate_signals]
    returns, with at most one pair appended to the queue and nothing else
    changed; a pair it appends has side BUY or SELL and quantity 0.1 or 0.2,
    and quantity 0.2 only when the RSI signal is absent and the
    moving-average and VWAP signals are both that side.  So has the pair
    [generate_signal] hands over after a call on a fresh generator. *)
Theorem signal_shape_invariant (self : t) :
  (exists new : list (string * Q),
     evaluate_signals self = Ok (enqueue new self)
     /\ (length new <= 1)%nat
     /\ forall (s : string) (q : Q), In (s, q) new ->
          (s = "BUY"%string \/ s = "SELL"%string)
          /\ (q = base_quantity \/ q = double_quantity)
          /\ (q = double_quantity ->
              signal_rsi self = Ok None
              /\ signal_simple_ma self = Ok (Some s)
              /\ signal_vwap self = Ok (Some s)))
  /\ (forall (s : string) (q : Q) (after rest : t),
        evaluate_signals (init (candles self)) = Ok after ->
        generate_signal after = Some ((s, q), rest) ->
        (s = "BUY"%string \/ s = "SELL"%string)
        /\ (q = base_quantity \/ q = double_quantity)).
Proof.
  split.
  - destruct (evaluate_signals_queued self) as (new & Heval & Hq).
    exists new. split; [exact Heval|]. split; [exact (queued_at_most_one self new Hq)|].
    intros s q Hin. split; [exact (queued_sides self new s q Hq Hin)|].
    exact (queued_quantities self new s q Hq Hin).
  - intros s q after rest Heval Hgen.
    destruct (evaluate_signals_queued (init (candles self))) as (new & Heval' & Hq).
    rewrite Heval in Heval'. injection Heval' as ->.
    unfold generate_signal, enqueue in Hgen. cbn [order_queue init app] in Hgen.
    destruct new as [|[s' q'] tl]; [discriminate|].
    injection Hgen as <- <- _.
    assert (Hin : In (s', q') ((s', q') :: tl)) by now left.
    split; [exact (queued_sides _ _ s' q' Hq Hin)|].
    exact (proj1 (queued_quantities _ _ s' q' Hq Hin)).
Qed.

Lemma signal_shape_invariant_witness :
  signal_rsi Samples.slump = Ok None
  /\ signal_simple_ma Samples.slump = Ok (Some "SELL"%string)
  /\ signal_vwap Samples.slump = Ok (Some "SELL"%string)
  /\ (forall rest : t,
        generate_signal (put ("SELL"%string, double_quantity) Samples.slump)
        = Some (("SELL"%string, double_quantity), rest) ->
        double_quantity = base_quantity \/ double_quantity = double_quantity).
Proof.
  destruct (signal_shape_invariant Samples.slump) as [(new & Heval & _ & Hshape) Hgen].
  assert (Hrun : evaluate_signals Samples.slump
                 = Ok (put ("SELL"%string, double_quantity) Samples.slump))
    by (vm_compute; reflexivity).
  rewrite Hrun in Heval. injection Heval as Hnew. cbn [app] in Hnew. subst new.
  destruct (Hshape "SELL"%string double_quantity (or_introl eq_refl)) as (_ & _ & Hdouble).
  destruct (Hdouble eq_refl) as (Hr & Hm & Hv).
  repeat split; try assumption.
  intros rest Hrest.
  exact (proj2 (Hgen "SELL"%string double_quantity _ rest Hrun Hrest)).
Defined.

(** C2.  The VWAP signal reads no volume.  [signal_vwap] is decided by the
    closes alone, through column [VWAP_SMA5], the five-row mean of [Close];
    on the window [slump] it answers SELL where the five-row smoothing of
    the cumulative VWAP, above the price, asks for BUY, and the call queues
    SELL at 0.2. *)
Theorem signal_vwap_ignores_volume :
  (forall self1 self2 : t,
     closes self1 = closes self2 -> signal_vwap self1 = signal_vwap self2)
  /\ signal_vwap Samples.slump = Ok (Some "SELL"%string)
  /\ Specified.signal_vwap_smoothed Samples.slump = Ok (Some "BUY"%string)
  /\ evaluate_signals Samples.slump
     = Ok (put ("SELL"%string, double_quantity) Samples.slump).
Proof.
  split; [|repeat split; vm_compute; reflexivity].
  intros self1 self2 H. unfold signal_vwap, VWAP_SMA5. now rewrite H.
Qed.

Lemma signal_vwap_ignores_volume_witness :
  volumes Samples.slump_thin <> volumes Samples.slump
  /\ signal_vwap Samples.slump_thin = signal_vwap Samples.slump.
Proof.
  split.
  - vm_compute. discriminate.
  - apply (proj1 signal_vwap_ignores_volume). vm_compute. reflexivity.
Defined.

End SignalTheorems.

(** ** The risk controller *)

Module RiskFacts.
Import RiskManagement RiskSamples.

Lemma track_peak_cases (self : t) (rp : Q) :
  (max_pnl self <= rp /\ track_peak self rp = set_max_pnl self rp)
  \/ (rp < max_pnl self /\ track_peak self rp = self).
Proof.
  unfold track_peak. destruct (Qleb (max_pnl self) rp) eqn:E.
  - left. split; [now apply Qleb_iff|reflexivity].
  - right. split; [now apply Qleb_false_iff|reflexivity].
Qed.

Lemma track_peak_bounds (self : t) (rp : Q) :
  max_pnl self <= max_pnl (track_peak self rp) /\ rp <= max_pnl (track_peak self rp).
Proof.
  destruct (track_peak_cases self rp) as [[H ->]|[H ->]]; simpl; split;
    auto using Qle_refl, Qlt_le_weak.
Qed.


(** After the peak is tracked the division of line 209 is by a peak above
    100: the drawdown check never raises. *)
Lemma drawdown_check_tracked (self : t) (rp : Q) :
  let self' := track_peak self rp in
  drawdown_check self' rp
  = Ok (if Qgtb rp 100 && Qleb (rp / max_pnl self') (1 - max_draw_down self')
        then [drawdown_warning; Liquidate (1 # 2) false (1 # 4)]
        else []).
Proof.
  intros self'. unfold drawdown_check.
  destruct (Qgtb rp 100) eqn:Hact; [|reflexivity]. cbn [andb].
  assert (Hz : Qeqb (max_pnl self') 0 = false).
  { destruct (Qeqb (max_pnl self') 0) eqn:E; [|reflexivity].
    apply Qeqb_iff in E. apply Qltb_iff in Hact.
    pose proof (proj2 (track_peak_bounds self rp)) as Hb. fold self' in Hb.
    rewrite E in Hb. exfalso.
    apply (Qlt_irrefl 0). eapply Qlt_le_trans; [|exact Hb].
    eapply Qlt_trans; [|exact Hact]. reflexivity. }
  rewrite Hz. now destruct (Qleb (rp / max_pnl self') (1 - max_draw_down self')).
Qed.

(** The steps of a cycle that finds the entry price and a book at lines
    169 and 195. *)
Lemma cycle_steps (self : t) (o : CycleObs) (E : Q) (book : OrderBook) :
  obs_entryPrice o = Some E ->
  obs_book o = Some book ->
  obs_book_195 o = true ->
  let P := obs_position o in
  let U := currentProfit P E book in
  let rp := obs_realized_pnl o in
  let self' := track_peak self rp in
  apply_risk_management_open_position_and_portfolio self o
  = (self',
     ([Logged INFO "Risk Manager => Using global position"]
      ++ [Logged INFO "Risk Manager => Position | Current Profit | Entry Price, Realized Pnl";
          CsvRow P U E (obs_realized_pnl_logged o)]
      ++ notional_check self P E)
     ++ open_profit_check self P E U
     ++ (if Qgtb rp 100 && Qleb (rp / max_pnl self') (1 - max_draw_down self')
         then [drawdown_warning; Liquidate (1 # 2) false (1 # 4)]
         else [])
     ++ (if obs_book_213 o then wide_stop_check self' P E U else [])).
Proof.
  intros HE Hb H195 P U rp self'.
  unfold apply_risk_management_open_position_and_portfolio.
  rewrite HE, Hb, H195.
  pose proof (drawdown_check_tracked self rp) as Hdd. cbv zeta in Hdd.
  fold rp. rewrite Hdd. subst P U rp self'.
  destruct (obs_book_213 o); rewrite <- ?app_assoc; [reflexivity|].
  now rewrite !app_nil_r.
Qed.





End RiskFacts.

Module RiskTheorems.
Import RiskManagement RiskSamples RiskFacts.




(** C9.  The unrealized PnL of a cycle.  With position [P], entry price
    [E] and the book's best bid and ask, [_currentProfit] is
    [P * (bid - E)] when [P > 0] and [P * (E - ask)] otherwise; it is the
    value the cycle writes to its CSV row and hands to the open-profit and
    the wide-stop check. *)
Theorem unrealized_pnl_formula (P E : Q) (book : OrderBook) :
  let U := currentProfit P E book in
  (0 < P -> U == P * (get_best_bid book - E))
  /\ (P <= 0 -> U == P * (E - get_best_ask book))
  /\ forall (self : t) (o : CycleObs),
       obs_position o = P ->
       obs_entryPrice o = Some E ->
       obs_book o = Some book ->
       let steps := snd (apply_risk_management_open_position_and_portfolio self o) in
       In (CsvRow P U E (obs_realized_pnl_logged o)) steps
       /\ (obs_book_195 o = true ->
           incl (open_profit_check self P E U) steps
           /\ (obs_book_213 o = true ->
               incl (wide_stop_check (track_peak self (obs_realized_pnl o)) P E U) steps)).
Proof.
  intros U. split; [|split].
  - intros HP. subst U. unfold currentProfit, Qgtb.
    apply Qltb_iff in HP. rewrite HP. ring.
  - intros HP. subst U. unfold currentProfit, Qgtb.
    apply Qltb_false_iff in HP. rewrite HP. reflexivity.
  - intros self o HPo HE Hb steps. split.
    + subst steps. destruct (obs_book_195 o) eqn:H195.
      * rewrite (cycle_steps self o E book HE Hb H195). cbn [snd]. rewrite HPo. fold U.
        apply in_or_app; left. apply in_or_app; right. apply in_or_app; left.
        simpl; auto.
      * unfold apply_risk_management_open_position_and_portfolio.
        rewrite HE, Hb, H195, HPo. fold U. cbn [snd].
        apply in_or_app; right. apply in_or_app; left. simpl; auto.
    + intros H195. subst steps.
      rewrite (cycle_steps self o E book HE Hb H195). cbn [snd]. rewrite HPo. fold U.
      split.
      * intros st Hst. apply in_or_app; right. apply in_or_app; left. exact Hst.
      * intros H213 st Hst. rewrite H213.
        apply in_or_app; right. apply in_or_app; right. apply in_or_app; right.
        exact Hst.
Qed.

Lemma unrealized_pnl_formula_witness :
  currentProfit 2 3000 {| get_best_bid := 3010; get_best_ask := 3011 |}
    == 2 * (3010 - 3000)
  /\ currentProfit (-2) 3000 {| get_best_bid := 3010; get_best_ask := 3011 |}
    == (-2) * (3000 - 3011)
  /\ In (CsvRow 1 (currentProfit 1 3000 {| get_best_bid := 3000; get_best_ask := 3001 |})
           3000 110)
        (snd (apply_risk_management_open_position_and_portfolio peaked_200 (calm 110))).
Proof.
  split; [|split].
  - refine (proj1 (unrealized_pnl_formula 2 3000 _) _). unfold Qlt. simpl. lia.
  - refine (proj1 (proj2 (unrealized_pnl_formula (-2) 3000 _)) _).
    unfold Qle. simpl. lia.
  - exact (proj1 (proj2 (proj2 (unrealized_pnl_formula 1 3000
                                  {| get_best_bid := 3000; get_best_ask := 3001 |}))
                         peaked_200 (calm 110) eq_refl eq_refl eq_refl)).
Defined.

End RiskTheorems.

(** ** The order coordinator *)

Module OrderFacts.
Import OrderManagementSystem ExchangeSamples.

Lemma calls_app (a b : Trace) : calls (a ++ b) = calls a ++ calls b.
Proof. unfold calls. apply flat_map_app. Qed.

Lemma logs_app (a b : Trace) : logs (a ++ b) = logs a ++ logs b.
Proof. unfold logs. apply flat_map_app. Qed.

Section Runs.

Variable self : t.
Variable env : Env.

Lemma log_trade_info_run (filename : string) (tr : Trace) :
  log_trade_info filename env tr = (Val tt, tr ++ [FileAppend filename; Sleep 10]).
Proof.
  unfold log_trade_info, sleep, bind, emit. cbn. now rewrite <- app_assoc.
Qed.

Lemma cancel_order_run (symbol_ : string) (order_id : Z) (tr : Trace) :
  cancel_order self symbol_ order_id env tr
  = match cancel_reply env tr symbol_ order_id with
    | Ok response =>
        (Val (Some response),
         tr ++ [Call (futures_cancel_order symbol_ order_id); Log INFO "Cancelled order"])
    | Raise _ =>
        (Val None,
         tr ++ [Call (futures_cancel_order symbol_ order_id);
                Log EXCEPTION "Failed to cancel order"])
    end.
Proof.
  unfold cancel_order, try_except, bind, request, logging, emit, ret.
  destruct (cancel_reply env tr symbol_ order_id); now rewrite <- app_assoc.
Qed.

Lemma place_limit_order_run (symbol_ : string) (price quantity : Q) (side : string)
    (tr : Trace) :
  let order_params := limit_order_params self symbol_ price quantity side in
  place_limit_order self symbol_ price quantity side env tr
  = match create_reply env tr order_params with
    | Ok order =>
        (Val (Some order),
         tr ++ [Call (futures_create_order order_params); Log INFO "Placed limit order";
                FileAppend "TradesInfo.txt"; Sleep 10])
    | Raise _ =>
        (Val None,
         tr ++ [Call (futures_create_order order_params);
                Log EXCEPTION "Failed to place limit order"])
    end.
Proof.
  intros order_params.
  unfold place_limit_order, try_except, bind, request, logging, emit, ret. fold order_params.
  destruct (create_reply env tr order_params).
  - rewrite log_trade_info_run. now rewrite <- !app_assoc.
  - now rewrite <- app_assoc.
Qed.

Lemma place_market_order_run (symbol_ : string) (quantity : Q) (side : string)
    (tr : Trace) :
  let order_params := market_order_params symbol_ quantity side in
  place_market_order self symbol_ quantity side env tr
  = if async_client self then
      match create_reply env tr order_params with
      | Ok order =>
          (Val (Some order),
           tr ++ [Call (futures_create_order order_params); Log INFO "Placed market order"])
      | Raise _ =>
          (Val None,
           tr ++ [Call (futures_create_order order_params);
                  Log EXCEPTION "Failed to place market order"])
      end
    else (Val None, tr ++ [Log EXCEPTION "Failed to place market order"]).
Proof.
  intros order_params.
  unfold place_market_order, try_except, bind, request, raise, logging, emit, ret.
  fold order_params. destruct (async_client self); [|reflexivity].
  destruct (create_reply env tr order_params); now rewrite <- app_assoc.
Qed.

(** The cancel loop returns, with one cancel request per order, in order. *)
Lemma cancel_loop_run (symbol_ : string) (l : list Order) (tr : Trace) :
  exists added,
    for_each l (fun order =>
      response <- cancel_order self symbol_ (orderId order) ;;
      log_trade_info "TradesInfo.txt") env tr = (Val tt, tr ++ added)
    /\ calls added = map (fun o => futures_cancel_order symbol_ (orderId o)) l.
Proof.
  revert tr. induction l as [|o l IH]; intros tr.
  - exists []. split; [now rewrite app_nil_r|reflexivity].
  - cbn [for_each]. unfold bind at 1. unfold bind at 1.
    rewrite cancel_order_run.
    destruct (cancel_reply env tr symbol_ (orderId o));
      rewrite log_trade_info_run;
      match goal with |- context [for_each l _ env ?t] => destruct (IH t) as (added & Hrun & Hcalls) end;
      rewrite Hrun; eexists; (split; [rewrite <- !app_assoc; reflexivity|]);
      rewrite !calls_app, Hcalls; reflexivity.
Qed.

(** [cancel_all_open_orders] returns: True when the query reported orders,
    False when it reported none and when it failed. *)
Lemma cancel_all_open_orders_run (symbol_ : string) (tr : Trace) :
  exists added,
    cancel_all_open_orders self symbol_ env tr
    = (Val (match open_orders_reply env tr symbol_ with
            | Ok (_ :: _) => true
            | _ => false
            end), tr ++ added)
    /\ calls added = [futures_get_open_orders symbol_]
                     ++ map (fun o => futures_cancel_order symbol_ (orderId o))
                            (reported env tr symbol_).
Proof.
  unfold cancel_all_open_orders, reported, try_except. unfold bind at 1. unfold request.
  destruct (open_orders_reply env tr symbol_) as [[|o l]|e].
  - eexists. split; [unfold bind, logging, emit, ret; rewrite <- app_assoc; reflexivity|].
    reflexivity.
  - destruct (cancel_loop_run symbol_ (o :: l) (tr ++ [Call (futures_get_open_orders symbol_)]))
      as (added & Hrun & Hcalls).
    unfold bind at 1. rewrite Hrun. eexists.
    split; [unfold ret; rewrite <- app_assoc; reflexivity|].
    rewrite calls_app, Hcalls. reflexivity.
  - eexists. split; [unfold bind, logging, emit, ret; rewrite <- app_assoc; reflexivity|].
    reflexivity.
Qed.

End Runs.

End OrderFacts.

Module OrderTheorems.
Import OrderManagementSystem ExchangeSamples OrderFacts.

(** C5, as the code has it.  A managed placement returns, and the requests
    it adds to the trace are, in this order: the query for the open orders
    of the symbol, one cancel for every order the query reported (none when
    the query failed), and the new order -- which the market variant cannot
    send while the asynchronous client is missing.  When no order is
    reported [cancel_all_open_orders] answers False, as it does on failure,
    and the order is placed all the same. *)
Theorem cancel_before_place (self : t) (env : Env) (symbol_ : string)
    (price quantity : Q) (side : string) (tr : Trace) :
  let cancels := map (fun o => futures_cancel_order symbol_ (orderId o))
                     (reported env tr symbol_) in
  (exists (response : option Order) (tr' : Trace),
     place_limit_order_with_cancellation self symbol_ price quantity side env tr
     = (Val response, tr')
     /\ calls tr' = calls tr ++ [futures_get_open_orders symbol_] ++ cancels
                    ++ [futures_create_order
                          (limit_order_params self symbol_ price quantity side)])
  /\ (exists (response : option Order) (tr' : Trace),
        place_market_order_with_cancellation self symbol_ quantity side env tr
        = (Val response, tr')
        /\ calls tr' = calls tr ++ [futures_get_open_orders symbol_] ++ cancels
                       ++ (if async_client self
                           then [futures_create_order
                                   (market_order_params symbol_ quantity side)]
                           else []))
  /\ (reported env tr symbol_ = [] ->
      fst (cancel_all_open_orders self symbol_ env tr) = Val false).
Proof.
  intros cancels.
  destruct (cancel_all_open_orders_run self env symbol_ tr) as (added & Hrun & Hcalls).
  fold cancels in Hcalls.
  split; [|split].
  - unfold place_limit_order_with_cancellation. unfold bind at 1. rewrite Hrun.
    destruct (match open_orders_reply env tr symbol_ with Ok (_ :: _) => true | _ => false end);
      unfold bind, logging, sleep, emit, ret;
      rewrite place_limit_order_run;
      match goal with |- context [create_reply env ?t ?p] => destruct (create_reply env t p) end;
      eexists; eexists; (split; [reflexivity|]);
      rewrite !calls_app, Hcalls; cbn [calls flat_map app];
      rewrite <- ?app_assoc, ?app_nil_r; reflexivity.
  - unfold place_market_order_with_cancellation. unfold bind at 1. rewrite Hrun.
    destruct (match open_orders_reply env tr symbol_ with Ok (_ :: _) => true | _ => false end);
      unfold bind, logging, sleep, emit, ret;
      rewrite place_market_order_run;
      destruct (async_client self);
      try match goal with |- context [create_reply env ?t ?p] => destruct (create_reply env t p) end;
      eexists; eexists; (split; [reflexivity|]);
      rewrite !calls_app, Hcalls; cbn [calls flat_map app];
      rewrite <- ?app_assoc, ?app_nil_r; reflexivity.
  - intros Hnone. rewrite Hrun. unfold reported in Hnone. cbn [fst].
    destruct (open_orders_reply env tr symbol_) as [[|o l]|e]; try reflexivity.
    discriminate Hnone.
Qed.

Lemma cancel_before_place_witness :
  fst (cancel_all_open_orders RiskSamples.oms "ETHUSDT" (exchange (Ok []) accepted 0) [])
  = Val false.
Proof.
  exact (proj2 (proj2 (cancel_before_place RiskSamples.oms (exchange (Ok []) accepted 0)
                         "ETHUSDT" 3000 (1 # 10) "BUY" [])) eq_refl).
Defined.

(** C5, the empty case.  With no open order [cancel_all_open_orders]
    answers False, the answer it gives when the query fails and not the
    True it gives after cancelling; the managed placement then logs no
    cancellation and goes through the branch of a failed one. *)
Lemma no_open_orders_answered_as_failure :
  fst (cancel_all_open_orders RiskSamples.oms "ETHUSDT" (exchange (Ok []) accepted 0) [])
  = Val false
  /\ fst (cancel_all_open_orders RiskSamples.oms "ETHUSDT"
            (exchange (Raise (BinanceAPIException (-1001))) accepted 0) [])
     = Val false
  /\ fst (cancel_all_open_orders RiskSamples.oms "ETHUSDT"
            (exchange (Ok resting) accepted 0) [])
     = Val true
  /\ ~ In (INFO, "All open orders have been canceled."%string)
          (logs (snd (place_limit_order_with_cancellation RiskSamples.oms "ETHUSDT"
                        3000 (1 # 10) "BUY" (exchange (Ok []) accepted 0) [])))
  /\ In (INFO, "All open orders have been canceled."%string)
        (logs (snd (place_limit_order_with_cancellation RiskSamples.oms "ETHUSDT"
                      3000 (1 # 10) "BUY" (exchange (Ok resting) accepted 0) []))).
Proof.
  repeat split; try (vm_compute; reflexivity).
  - vm_compute. intros [H|[H|[]]]; discriminate H.
  - vm_compute. tauto.
Qed.

(** C3.  The rounding of a limit order is fixed.  Every limit order is of
    type LIMIT and GTC, with the price rounded to 2 decimals and the
    quantity to 1, whatever tick size and precisions the coordinator has
    loaded.  For ETHUSDT, loaded with step size 0.001, a quantity of 0.123
    is sent as 0.1; for BTCUSDT, loaded with tick size 0.1, a price of
    50000.17 is sent unchanged. *)
Theorem limit_order_rounding_is_fixed :
  (forall (self : t) (symbol_ : string) (price quantity : Q) (side : string),
     limit_order_params self symbol_ price quantity side
     = {| p_symbol := symbol_; p_side := upper side; p_type := "LIMIT";
          p_timeInForce := Some "GTC"%string;
          p_price := Some (py_round price 2);
          p_quantity := py_round quantity 1 |})
  /\ (exists eth : t,
        init "ETHUSDT" exchange_info = Ok eth
        /\ tick_size eth = 1 # 100
        /\ price_precision eth = 2%Z
        /\ quantity_precision eth = 3%Z
        /\ calls (snd (place_limit_order eth "ETHUSDT" 3000 (123 # 1000) "buy"
                         (exchange (Ok []) accepted 0) []))
           = [futures_create_order
                {| p_symbol := "ETHUSDT"; p_side := "BUY"; p_type := "LIMIT";
                   p_timeInForce := Some "GTC"%string;
                   p_price := Some 3000;
                   p_quantity := 1 # 10 |}])
  /\ (exists btc : t,
        init "BTCUSDT" exchange_info = Ok btc
        /\ tick_size btc = 1 # 10
        /\ price_precision btc = 1%Z
        /\ p_price (limit_order_params btc "BTCUSDT" (5000017 # 100) 1 "SELL")
           = Some (5000017 # 100)).
Proof.
  split; [reflexivity|]. split.
  - eexists. split; [vm_compute; reflexivity|]. repeat split; vm_compute; reflexivity.
  - eexists. split; [vm_compute; reflexivity|]. repeat split; vm_compute; reflexivity.
Qed.

End OrderTheorems.

(** ** Rejected orders in the trading and the risk loop *)

Module RejectionFacts.
Import OrderManagementSystem ExchangeSamples OrderFacts.
Import RiskManagement Main.

(** A frame of at least 60 candles always yields a signal to hand over. *)
Lemma fresh_signal (df : list SignalGenerator.Candle) :
  (60 <= length df)%nat ->
  exists (s : string) (q : Q) (after rest : SignalGenerator.t),
    SignalGenerator.evaluate_signals (SignalGenerator.init df) = Ok after
    /\ SignalGenerator.generate_signal after = Some ((s, q), rest)
    /\ (s = "BUY"%string \/ s = "SELL"%string)
    /\ (q = SignalGenerator.base_quantity \/ q = SignalGenerator.double_quantity).
Proof.
  intros Hlen.
  destruct (SignalFacts.evaluate_signals_queued (SignalGenerator.init df))
    as (new & Heval & Hq).
  assert (Hone : exists s q, new = [(s, q)]).
  { destruct Hq; try (eexists; eexists; reflexivity).
    cbn [SignalGenerator.candles SignalGenerator.init] in *. lia. }
  destruct Hone as (s & q & ->).
  exists s, q. eexists. eexists. split; [exact Heval|]. split; [reflexivity|].
  assert (Hin : In (s, q) [(s, q)]) by now left.
  split; [exact (SignalTheorems.queued_sides _ _ s q Hq Hin)|].
  exact (proj1 (SignalTheorems.queued_quantities _ _ s q Hq Hin)).
Qed.

Ltac run :=
  cbv beta iota zeta
      delta [bind ret raise hang observe emit logging sleep lift request try_except
             read_position get_order_book book_best_bid book_best_ask status_is].


Section Rejected.

Variable env : Env.
Variable e : Exn.

(** The exchange refuses every new order. *)
Hypothesis rejects : forall (tr : Trace) (p : OrderParams), create_reply env tr p = Raise e.



(** There is a book whenever it is asked for. *)
Hypothesis book_there : forall tr : Trace, order_book env tr <> None.




(** The position is too large to count as flat whenever it is read. *)
Hypothesis exposed : forall tr : Trace, 1 # 2 < Qabs (global_position env tr).


End Rejected.



End RejectionFacts.

Module RejectionTheorems.
Import OrderManagementSystem ExchangeSamples OrderFacts RejectionFacts.
Import RiskManagement Main.



End RejectionTheorems.

(** ** The account gateway *)

Module AccountTheorems.
Import AccountGateWay.

(** C4.  The keepalive job does nothing.  [connect] registers one job,
    every 15 minutes, for [_extend_listen_key], and sends no request; the
    job, fired any number of times, leaves the trace as it was: no request
    reaches the exchange and nothing is logged. *)
Theorem keepalive_job_is_empty :
  (forall (self : t) (schedule : Scheduler) (env : Env) (tr : Trace),
     exists (self' : t) (added : Trace),
       connect self schedule env tr
       = (Val (self', schedule ++ [ {| every := 15; unit_ := minutes;
                                       job_func := extend_listen_key_method |} ]),
          tr ++ added)
       /\ calls added = [])
  /\ (forall (n : nat) (self : t) (j : Job) (env : Env) (tr : Trace),
        run_job_times n self j env tr = (Val tt, tr)).
Proof.
  split.
  - intros self schedule env tr. unfold connect, bind, logging, emit, ret.
    eexists. exists [Log INFO "Initializing connection"; Log INFO "Reconnecting websocket";
                     Log INFO "Starting event loop thread"].
    split; [|reflexivity]. now rewrite <- !app_assoc.
  - induction n as [|n IH]; intros self j env tr; [reflexivity|].
    cbn [run_job_times]. unfold bind at 1, run_job.
    destruct (job_func j). unfold extend_listen_key, ret. apply IH.
Qed.

End AccountTheorems.

(** * Further properties *)

(** ** The order coordinator: construction and market orders *)

Module OrderExtras.
Import OrderManagementSystem ExchangeSamples OrderFacts.

Lemma load_filter_keeps (self self' : t) (f : Filter) :
  load_filter self f = Ok self' ->
  symbol self' = symbol self /\ async_client self' = async_client self.
Proof.
  destruct f as [tick|step|other]; cbn [load_filter].
  - destruct (precision_of tick); cbn [rbind]; [|discriminate].
    intros [= <-]. split; reflexivity.
  - destruct (precision_of step); cbn [rbind]; [|discriminate].
    intros [= <-]. split; reflexivity.
  - intros [= <-]. split; reflexivity.
Qed.

Lemma load_filters_keeps (fs : list Filter) (self self' : t) :
  load_filters self fs = Ok self' ->
  symbol self' = symbol self /\ async_client self' = async_client self.
Proof.
  revert self. induction fs as [|f fs IH]; intros self; cbn [load_filters].
  - intros [= <-]. split; reflexivity.
  - destruct (load_filter self f) as [mid|ex] eqn:Hf; cbn [rbind]; [|discriminate].
    intros Hrest. destruct (load_filter_keeps _ _ _ Hf) as [Hs Ha].
    destruct (IH _ Hrest) as [Hs' Ha']. split; congruence.
Qed.

Lemma load_exchange_info_keeps (info : list SymbolInfo) (self self' : t) :
  load_exchange_info self info = Ok self' ->
  symbol self' = symbol self /\ async_client self' = async_client self.
Proof.
  revert self. induction info as [|si info IH]; intros self; cbn [load_exchange_info].
  - intros [= <-]. split; reflexivity.
  - destruct (String.eqb (si_symbol si) (symbol self)).
    + destruct (load_filters self (si_filters si)) as [mid|ex] eqn:Hf; cbn [rbind];
        [|discriminate].
      intros Hrest. destruct (load_filters_keeps _ _ _ Hf) as [Hs Ha].
      destruct (IH _ Hrest) as [Hs' Ha']. split; congruence.
    + cbn [rbind]. apply IH.
Qed.

(** X1.  A coordinator as its constructor leaves it has no asynchronous
    client: [place_market_order] then logs the failure and returns None
    without a request to the exchange, whatever the exchange would answer.
    Only after [async_init] does the order go out. *)
Theorem market_order_needs_async_init (symbol_ : string) (info : list SymbolInfo)
    (oms : t) :
  init symbol_ info = Ok oms ->
  forall (sym : string) (quantity : Q) (side : string) (env : Env) (tr : Trace),
    place_market_order oms sym quantity side env tr
    = (Val None, tr ++ [Log EXCEPTION "Failed to place market order"])
    /\ calls (snd (place_market_order (async_init oms) sym quantity side env tr))
       = calls tr ++ [futures_create_order (market_order_params sym quantity side)].
Proof.
  intros Hinit sym quantity side env tr.
  destruct (load_exchange_info_keeps _ _ _ Hinit) as [_ Hclient].
  cbn [async_client] in Hclient.
  split.
  - rewrite place_market_order_run. cbv zeta. now rewrite Hclient.
  - rewrite place_market_order_run. cbv zeta. cbn [async_client async_init].
    destruct (create_reply env tr (market_order_params sym quantity side));
      cbn [snd]; rewrite calls_app; reflexivity.
Qed.

Lemma market_order_needs_async_init_witness :
  place_market_order RiskSamples.oms "ETHUSDT" 1 "SELL" (exchange (Ok []) accepted 1) []
  = (Val None, [Log EXCEPTION "Failed to place market order"]).
Proof.
  refine (proj1 (market_order_needs_async_init "ETHUSDT" exchange_info RiskSamples.oms
                   _ "ETHUSDT"%string 1 "SELL"%string (exchange (Ok []) accepted 1) [])).
  vm_compute. reflexivity.
Defined.

(** X2.  A symbol the exchange information does not list leaves the
    coordinator with its defaults: tick size 0.01 and both precisions 8. *)
Theorem unknown_symbol_keeps_defaults (symbol_ : string) (info : list SymbolInfo) :
  (forall si : SymbolInfo, In si info -> si_symbol si <> symbol_) ->
  init symbol_ info
  = Ok {| symbol := symbol_; async_client := false; tick_size := 1 # 100;
          price_precision := 8; quantity_precision := 8 |}.
Proof.
  unfold init. generalize (1 # 100) at 1 2. intros tick.
  induction info as [|si info IH]; intros Hnot; cbn [load_exchange_info]; [reflexivity|].
  cbn [symbol].
  destruct (String.eqb_spec (si_symbol si) symbol_) as [Heq|_].
  - exfalso. exact (Hnot si (or_introl eq_refl) Heq).
  - cbn [rbind]. apply IH. intros si' Hin. apply Hnot. now right.
Qed.

Lemma unknown_symbol_keeps_defaults_witness :
  init "XRPUSDT" exchange_info
  = Ok {| symbol := "XRPUSDT"; async_client := false; tick_size := 1 # 100;
          price_precision := 8; quantity_precision := 8 |}.
Proof.
  apply unknown_symbol_keeps_defaults.
  intros si [<- | [<- | []]]; discriminate.
Defined.

End OrderExtras.

(** ** Precisions and rounding *)

Module RoundingExtras.
Import OrderManagementSystem.

Lemma count_pow10_compat (fuel : nat) (y y' : Q) :
  y == y' -> count_pow10 fuel y = count_pow10 fuel y'.
Proof.
  revert y y'. induction fuel as [|fuel IH]; intros y y' Hy; cbn [count_pow10];
    [reflexivity|].
  unfold Qleb. rewrite Hy.
  destruct (Qle_bool 10 y'); [|reflexivity].
  f_equal. apply IH. now rewrite Hy.
Qed.

Lemma count_pow10_power (k fuel : nat) :
  (k < fuel)%nat -> count_pow10 fuel (inject_Z (10 ^ Z.of_nat k)) = Z.of_nat k.
Proof.
  revert fuel. induction k as [|k IH]; intros [|fuel] Hlt; try lia.
  - reflexivity.
  - cbn [count_pow10].
    assert (Hge : Qleb 10 (inject_Z (10 ^ Z.of_nat (S k))) = true).
    { apply Qleb_iff. change 10 with (inject_Z 10). rewrite <- Zle_Qle.
      rewrite Nat2Z.inj_succ, Z.pow_succ_r by lia.
      assert (0 < 10 ^ Z.of_nat k)%Z by (apply Z.pow_pos_nonneg; lia). lia. }
    rewrite Hge.
    rewrite (count_pow10_compat fuel _ (inject_Z (10 ^ Z.of_nat k))).
    + rewrite IH by lia. lia.
    + rewrite Nat2Z.inj_succ, Z.pow_succ_r by lia.
      rewrite inject_Z_mult. change (inject_Z 10) with 10. field.
Qed.

Lemma size_nat_bound (p : positive) : (Zpos p < 2 ^ Z.of_nat (Pos.size_nat p))%Z.
Proof.
  induction p as [p IH|p IH|]; cbn [Pos.size_nat];
    rewrite ?Nat2Z.inj_succ, ?Z.pow_succ_r by lia; lia.
Qed.

Lemma size_nat_power_of_ten (k : nat) :
  (k < Pos.size_nat (Z.to_pos (10 ^ Z.of_nat k)))%nat.
Proof.
  assert (Hpos : (0 < 10 ^ Z.of_nat k)%Z) by (apply Z.pow_pos_nonneg; lia).
  pose proof (size_nat_bound (Z.to_pos (10 ^ Z.of_nat k))) as Hb.
  rewrite Z2Pos.id in Hb by exact Hpos.
  assert (Hle : (2 ^ Z.of_nat k <= 10 ^ Z.of_nat k)%Z)
    by (apply Z.pow_le_mono_l; lia).
  apply Nat2Z.inj_lt. apply (Z.pow_lt_mono_r_iff 2); lia.
Qed.

Lemma precision_of_decimal_step (k : nat) :
  precision_of (decimal_step k) = Ok (Z.of_nat k).
Proof.
  assert (Hpos : (0 < 10 ^ Z.of_nat k)%Z) by (apply Z.pow_pos_nonneg; lia).
  unfold precision_of, decimal_step.
  set (p := Z.to_pos (10 ^ Z.of_nat k)).
  assert (Hz : Qeqb (1 # p) 0 = false) by reflexivity.
  assert (Hneg : Qltb (1 # p) 0 = false) by reflexivity.
  assert (Hone : Qleb (1 # p) 1 = true).
  { apply Qleb_iff. unfold Qle. cbn. lia. }
  rewrite Hz, Hneg, Hone. f_equal.
  change (/ (1 # p)) with (inject_Z (Zpos p)).
  assert (Hp : Zpos p = (10 ^ Z.of_nat k)%Z) by (unfold p; now apply Z2Pos.id).
  rewrite Hp. apply count_pow10_power. cbn [Qden Qnum].
  pose proof (size_nat_power_of_ten k) as Hs. fold p in Hs. lia.
Qed.

(** X3.  For tick size [10^-j] and step size [10^-k] the constructor
    stores the tick size and takes [j] and [k] as price and quantity
    precision. *)
Theorem decimal_filters_give_decimal_places (symbol_ : string) (j k : nat) :
  init symbol_
    [ {| si_symbol := symbol_;
         si_filters := [PRICE_FILTER (decimal_step j); LOT_SIZE (decimal_step k)] |} ]
  = Ok {| symbol := symbol_; async_client := false; tick_size := decimal_step j;
          price_precision := Z.of_nat j; quantity_precision := Z.of_nat k |}.
Proof.
  unfold init. cbn [load_exchange_info si_symbol si_filters symbol].
  rewrite String.eqb_refl. cbn [load_filters load_filter].
  rewrite precision_of_decimal_step. cbn [rbind].
  rewrite precision_of_decimal_step. reflexivity.
Qed.

Lemma round_half_even_close (y : Q) :
  Qabs (inject_Z (round_half_even y) - y) <= 1 # 2.
Proof.
  pose proof (Qfloor_le y) as Hlo. pose proof (Qlt_floor y) as Hhi.
  rewrite inject_Z_plus in Hhi. change (inject_Z 1) with 1 in Hhi.
  unfold round_half_even.
  set (f := Qfloor y) in *.
  apply Qabs_Qle_condition.
  destruct (Qltb (y - inject_Z f) (1 # 2)) eqn:Hlt.
  - apply Qltb_iff in Hlt. split; lra.
  - apply Qltb_false_iff in Hlt.
    destruct (Qltb (1 # 2) (y - inject_Z f)) eqn:Hgt.
    + rewrite inject_Z_plus. change (inject_Z 1) with 1. split; lra.
    + apply Qltb_false_iff in Hgt.
      destruct (Z.even f);
        rewrite ?inject_Z_plus; change (inject_Z 1) with 1; split; lra.
Qed.

Lemma scale_positive (ndigits : nat) : 0 < inject_Z (10 ^ Z.of_nat ndigits).
Proof.
  change 0 with (inject_Z 0). rewrite <- Zlt_Qlt. apply Z.pow_pos_nonneg; lia.
Qed.

(** [round(x, n)] is within half a unit of the [n]-th decimal of [x]. *)
Lemma py_round_close (x : Q) (ndigits : nat) :
  Qabs (py_round x ndigits - x) <= (1 # 2) / inject_Z (10 ^ Z.of_nat ndigits).
Proof.
  unfold py_round. rewrite Qred_correct.
  pose proof (scale_positive ndigits) as Hs.
  set (s := inject_Z (10 ^ Z.of_nat ndigits)) in *.
  pose proof (round_half_even_close (x * s)) as Hr.
  set (r := inject_Z (round_half_even (x * s))) in *.
  assert (Hnz : ~ s == 0) by (intros Hz; rewrite Hz in Hs; exact (Qlt_irrefl 0 Hs)).
  assert (Heq : r / s - x == (r - x * s) / s) by (field; exact Hnz).
  rewrite Heq. unfold Qdiv. rewrite Qabs_Qmult.
  rewrite (Qabs_pos (/ s)) by (apply Qlt_le_weak, Qinv_lt_0_compat; exact Hs).
  apply Qmult_le_compat_r; [exact Hr|].
  apply Qlt_le_weak, Qinv_lt_0_compat; exact Hs.
Qed.

(** X4.  What a limit order carries is close to what was asked: the price
    within 0.005 and the quantity within 0.05 of the arguments; a quantity
    from 0 up to but excluding 0.05 goes out as 0. *)
Theorem limit_order_rounding_error (self : t) (symbol_ : string) (price quantity : Q)
    (side : string) :
  let order_params := limit_order_params self symbol_ price quantity side in
  (exists sent : Q, p_price order_params = Some sent /\ Qabs (sent - price) <= 1 # 200)
  /\ Qabs (p_quantity order_params - quantity) <= 1 # 20
  /\ (0 <= quantity -> quantity < 1 # 20 -> p_quantity order_params = 0).
Proof.
  cbn [limit_order_params p_price p_quantity]. split; [|split].
  - eexists. split; [reflexivity|]. exact (py_round_close price 2).
  - exact (py_round_close quantity 1).
  - intros Hlo Hhi. unfold py_round, round_half_even.
    set (y := quantity * inject_Z (10 ^ Z.of_nat 1)).
    assert (Hy : y == quantity * 10) by reflexivity.
    pose proof (Qfloor_le y) as Hfl. pose proof (Qlt_floor y) as Hfu.
    assert (Hf : Qfloor y = 0%Z).
    { assert (H1 : (Qfloor y < 1)%Z).
      { rewrite Zlt_Qlt. change (inject_Z 1) with 1. lra. }
      assert (H0 : (0 < Qfloor y + 1)%Z).
      { rewrite Zlt_Qlt. change (inject_Z 0) with 0. lra. }
      lia. }
    rewrite Hf.
    assert (Hlt : Qltb (y - inject_Z 0) (1 # 2) = true).
    { apply Qltb_iff. change (inject_Z 0) with 0. lra. }
    rewrite Hlt. reflexivity.
Qed.

End RoundingExtras.

Lemma limit_order_rounding_error_witness :
  p_quantity (OrderManagementSystem.limit_order_params RiskSamples.oms "ETHUSDT" 3000
                (4 # 100) "BUY") = 0.
Proof.
  refine (proj2 (proj2 (RoundingExtras.limit_order_rounding_error RiskSamples.oms
                          "ETHUSDT" 3000 (4 # 100) "BUY")) _ _).
  - unfold Qle. simpl. lia.
  - reflexivity.
Defined.

(** ** What a managed placement leaves on the trace *)

Module PlacementExtras.
Import OrderManagementSystem ExchangeSamples OrderFacts Measures.

Lemma slept_app (a b : Trace) : slept (a ++ b) = (slept a + slept b)%nat.
Proof.
  induction a as [|e a IH]; [reflexivity|].
  cbn [app slept fold_right]. fold (slept (a ++ b)). fold (slept a).
  rewrite IH. destruct e; lia.
Qed.

Lemma created_app (a b : Trace) : created (a ++ b) = created a ++ created b.
Proof. unfold created. apply flat_map_app. Qed.

Section Profiles.

Variable self : t.
Variable env : Env.

Lemma cancel_loop_profile (symbol_ : string) (l : list Order) (tr : Trace) :
  exists added,
    for_each l (fun order =>
      response <- cancel_order self symbol_ (orderId order) ;;
      log_trade_info "TradesInfo.txt") env tr = (Val tt, tr ++ added)
    /\ slept added = (10 * length l)%nat
    /\ created added = []
    /\ ((forall (t0 : Trace) (order_id : Z),
           exists ex, cancel_reply env t0 symbol_ order_id = Raise ex) ->
        logs added = map (fun _ => (EXCEPTION, "Failed to cancel order"%string)) l).
Proof.
  revert tr. induction l as [|o l IH]; intros tr.
  - exists []. rewrite app_nil_r. repeat split; reflexivity.
  - cbn [for_each]. unfold bind at 1. unfold bind at 1.
    rewrite cancel_order_run.
    destruct (cancel_reply env tr symbol_ (orderId o)) as [response|ex] eqn:Hc;
      rewrite log_trade_info_run;
      match goal with
      | |- context [for_each l _ env ?t] =>
          destruct (IH t) as (added & Hrun & Hslept & Hcreated & Hlogs)
      end;
      rewrite Hrun; eexists; (split; [rewrite <- !app_assoc; reflexivity|]);
      rewrite !slept_app, !created_app, Hslept, Hcreated;
      (split; [cbn; lia|]); (split; [reflexivity|]);
      intros Hrefuse.
    + destruct (Hrefuse tr (orderId o)) as (ex & Hex). congruence.
    + rewrite !logs_app, (Hlogs Hrefuse). reflexivity.
Qed.

Lemma cancel_all_open_orders_profile (symbol_ : string) (tr : Trace) :
  exists added,
    cancel_all_open_orders self symbol_ env tr
    = (Val (match open_orders_reply env tr symbol_ with
            | Ok (_ :: _) => true
            | _ => false
            end), tr ++ added)
    /\ slept added = (10 * length (reported env tr symbol_))%nat
    /\ created added = [].
Proof.
  unfold cancel_all_open_orders, reported, try_except. unfold bind at 1. unfold request.
  destruct (open_orders_reply env tr symbol_) as [[|o l]|e].
  - eexists. split; [unfold bind, logging, emit, ret; rewrite <- app_assoc; reflexivity|].
    split; reflexivity.
  - destruct (cancel_loop_profile symbol_ (o :: l)
                (tr ++ [Call (futures_get_open_orders symbol_)]))
      as (added & Hrun & Hslept & Hcreated & _).
    unfold bind at 1. rewrite Hrun. eexists.
    split; [unfold ret; rewrite <- app_assoc; reflexivity|].
    rewrite slept_app, created_app, Hslept, Hcreated. split; reflexivity.
  - eexists. split; [unfold bind, logging, emit, ret; rewrite <- app_assoc; reflexivity|].
    split; reflexivity.
Qed.

Lemma managed_limit_order_profile (symbol_ : string) (price quantity : Q)
    (side : string) (tr : Trace) :
  exists (response : option Order) (added : Trace),
    place_limit_order_with_cancellation self symbol_ price quantity side env tr
    = (Val response, tr ++ added)
    /\ created added = [limit_order_params self symbol_ price quantity side]
    /\ slept added
       = (10 * length (reported env tr symbol_)
          + (match response with Some _ => 10 | None => 0 end) + 5)%nat.
Proof.
  destruct (cancel_all_open_orders_profile symbol_ tr) as (added & Hrun & Hslept & Hcreated).
  unfold place_limit_order_with_cancellation. unfold bind at 1. rewrite Hrun.
  destruct (match open_orders_reply env tr symbol_ with Ok (_ :: _) => true | _ => false end);
    unfold bind, logging, sleep, emit, ret;
    rewrite place_limit_order_run;
    match goal with |- context [create_reply env ?t ?p] => destruct (create_reply env t p) end;
    eexists; eexists; (split; [rewrite <- !app_assoc; reflexivity|]);
    rewrite !slept_app, !created_app, Hslept, Hcreated;
    (split; [reflexivity|cbn; lia]).
Qed.

Lemma managed_market_order_profile (symbol_ : string) (quantity : Q)
    (side : string) (tr : Trace) :
  exists (response : option Order) (added : Trace),
    place_market_order_with_cancellation self symbol_ quantity side env tr
    = (Val response, tr ++ added)
    /\ created added = (if async_client self
                        then [market_order_params symbol_ quantity side] else [])
    /\ slept added = (10 * length (reported env tr symbol_) + 1)%nat.
Proof.
  destruct (cancel_all_open_orders_profile symbol_ tr) as (added & Hrun & Hslept & Hcreated).
  unfold place_market_order_with_cancellation. unfold bind at 1. rewrite Hrun.
  destruct (match open_orders_reply env tr symbol_ with Ok (_ :: _) => true | _ => false end);
    unfold bind, logging, sleep, emit, ret;
    rewrite place_market_order_run;
    destruct (async_client self);
    try match goal with |- context [create_reply env ?t ?p] => destruct (create_reply env t p) end;
    eexists; eexists; (split; [rewrite <- !app_assoc; reflexivity|]);
    rewrite !slept_app, !created_app, Hslept, Hcreated;
    (split; [reflexivity|cbn; lia]).
Qed.

End Profiles.

(** X5.  Every managed placement submits exactly one limit order (the
    market variant one order, or none without the asynchronous client), and
    the time it sleeps is 10 seconds for every open order the query
    reported, plus 10 seconds when the limit order was accepted, plus the
    settling wait of 5 seconds (1 second for a market order). *)
Theorem managed_placement_profile (self : t) (env : Env) (symbol_ : string)
    (price quantity : Q) (side : string) (tr : Trace) :
  (exists (response : option Order) (added : Trace),
     place_limit_order_with_cancellation self symbol_ price quantity side env tr
     = (Val response, tr ++ added)
     /\ created added = [limit_order_params self symbol_ price quantity side]
     /\ slept added
        = (10 * length (reported env tr symbol_)
           + (match response with Some _ => 10 | None => 0 end) + 5)%nat)
  /\ (exists (response : option Order) (added : Trace),
        place_market_order_with_cancellation self symbol_ quantity side env tr
        = (Val response, tr ++ added)
        /\ created added = (if async_client self
                            then [market_order_params symbol_ quantity side] else [])
        /\ slept added = (10 * length (reported env tr symbol_) + 1)%nat).
Proof.
  split.
  - apply managed_limit_order_profile.
  - apply managed_market_order_profile.
Qed.

(** X6.  [cancel_all_open_orders] answers True as soon as the query reports
    an order, also when the exchange refuses every cancel: it then logs one
    failure per reported order and nothing else. *)
Theorem cancel_all_true_without_any_cancel (self : t) (env : Env) (symbol_ : string)
    (tr : Trace) (o : Order) (l : list Order) :
  open_orders_reply env tr symbol_ = Ok (o :: l) ->
  (forall (t0 : Trace) (order_id : Z),
     exists ex, cancel_reply env t0 symbol_ order_id = Raise ex) ->
  exists added,
    cancel_all_open_orders self symbol_ env tr = (Val true, tr ++ added)
    /\ logs added = map (fun _ => (EXCEPTION, "Failed to cancel order"%string)) (o :: l).
Proof.
  intros Hopen Hrefuse.
  unfold cancel_all_open_orders, try_except. unfold bind at 1. unfold request.
  rewrite Hopen.
  destruct (cancel_loop_profile self env symbol_ (o :: l)
              (tr ++ [Call (futures_get_open_orders symbol_)]))
    as (added & Hrun & _ & _ & Hlogs).
  unfold bind at 1. rewrite Hrun. eexists.
  split; [unfold ret; rewrite <- app_assoc; reflexivity|].
  rewrite logs_app, (Hlogs Hrefuse). reflexivity.
Qed.

Lemma cancel_all_true_without_any_cancel_witness :
  exists added,
    cancel_all_open_orders RiskSamples.oms "ETHUSDT" (stubborn (Ok resting) accepted 1) []
    = (Val true, [] ++ added)
    /\ logs added = map (fun _ => (EXCEPTION, "Failed to cancel order"%string)) resting.
Proof.
  apply (cancel_all_true_without_any_cancel RiskSamples.oms
           (stubborn (Ok resting) accepted 1) "ETHUSDT" []).
  - reflexivity.
  - intros t0 order_id. eexists. reflexivity.
Defined.

End PlacementExtras.

(** ** The trading loop and the liquidation loop *)

Module LoopExtras.
Import OrderManagementSystem ExchangeSamples OrderFacts Measures PlacementExtras.
Import RiskManagement Main.

Ltac run :=
  cbv beta iota zeta
      delta [bind ret raise hang observe emit logging sleep lift request try_except
             read_position get_order_book book_best_bid book_best_ask status_is].

(** X7.  With fewer than 60 candles a turn of the trading loop never comes
    back: nothing is queued, so [generate_signal] waits on the empty queue;
    the candle request is all the turn has sent. *)
Theorem short_frame_blocks_the_loop (fuel : nat) (order_manager : OMS.t)
    (symbol_ : string) (max_limit_single_pair : Q) (env : Env) (tr : Trace)
    (df : list SignalGenerator.Candle) :
  klines_reply env tr = Ok df ->
  (length df < 60)%nat ->
  trading_iteration fuel order_manager symbol_ max_limit_single_pair env tr
  = (Hang, tr ++ [Call get_klines]).
Proof.
  intros Hk Hlen. unfold trading_iteration. run. rewrite Hk. run.
  unfold SG.evaluate_signals. cbn [SG.candles SG.init].
  apply Nat.ltb_lt in Hlen. rewrite Hlen. reflexivity.
Qed.

Lemma short_frame_blocks_the_loop_witness :
  trading_iteration 5 RiskSamples.oms "ETHUSDT" (3 # 2)
    {| open_orders_reply := fun _ _ => Ok [];
       cancel_reply := fun _ _ _ => Raise (BinanceAPIException (-2011));
       create_reply := fun _ _ => accepted;
       klines_reply := fun _ => Ok (firstn 59 (SignalGenerator.candles Samples.slump));
       global_position := fun _ => 0;
       order_book := fun _ => Some touch |} []
  = (Hang, [] ++ [Call get_klines]).
Proof.
  apply (short_frame_blocks_the_loop 5 RiskSamples.oms "ETHUSDT" (3 # 2) _ []
           (firstn 59 (SignalGenerator.candles Samples.slump))).
  - reflexivity.
  - vm_compute. lia.
Defined.

Section WithBook.

Variable env : Env.
Hypothesis book_there : forall tr : Trace, order_book env tr <> None.

(** X8.  At or beyond the position limit the trading pass only reduces:
    with the position at or above the limit the one order it submits is a
    limit SELL, whatever the signal says; with the position at or below
    minus the limit (and below the limit) it is a limit BUY. *)
Theorem limit_breach_only_reduces (order_manager : OMS.t) (symbol_ side : string)
    (quantity max_limit_single_pair : Q) (tr : Trace) :
  (max_limit_single_pair <= global_position env tr ->
   exists (out : Outcome Flow) (added : Trace) (p : OrderParams),
     trading_pass order_manager symbol_ side quantity max_limit_single_pair env tr
     = (out, tr ++ added)
     /\ created added = [p] /\ p_side p = "SELL"%string /\ p_type p = "LIMIT"%string)
  /\ (global_position env tr < max_limit_single_pair ->
      global_position env tr <= - max_limit_single_pair ->
      exists (out : Outcome Flow) (added : Trace) (p : OrderParams),
        trading_pass order_manager symbol_ side quantity max_limit_single_pair env tr
        = (out, tr ++ added)
        /\ created added = [p] /\ p_side p = "BUY"%string /\ p_type p = "LIMIT"%string).
Proof.
  split.
  - intros Hpos. apply Qleb_iff in Hpos.
    unfold trading_pass. run. unfold Qgeb. rewrite Hpos.
    destruct (order_book env tr) as [b|] eqn:Hb; [|exfalso; exact (book_there tr Hb)].
    destruct (String.eqb_spec side "SELL") as [-> | _]; run;
      match goal with
      | |- context [place_limit_order_with_cancellation ?om ?sy ?pr ?q ?sd env ?t] =>
          destruct (managed_limit_order_profile om env sy pr q sd t)
            as (response & added & Hrun & Hcreated & _);
          rewrite Hrun
      end;
      destruct response as [o|]; run;
      try destruct (String.eqb (status o) "FILLED"); run;
      rewrite <- ?app_assoc;
      eexists; eexists; eexists;
      (split; [reflexivity|]);
      rewrite ?created_app, Hcreated; cbn [created flat_map app];
      (split; [reflexivity|split; reflexivity]).
  - intros Hbelow Hpos. apply Qleb_iff in Hpos. apply Qleb_false_iff in Hbelow.
    unfold trading_pass. run. unfold Qgeb. rewrite Hbelow, Hpos.
    destruct (order_book env tr) as [b|] eqn:Hb; [|exfalso; exact (book_there tr Hb)].
    destruct (String.eqb_spec side "BUY") as [-> | _]; run;
      match goal with
      | |- context [place_limit_order_with_cancellation ?om ?sy ?pr ?q ?sd env ?t] =>
          destruct (managed_limit_order_profile om env sy pr q sd t)
            as (response & added & Hrun & Hcreated & _);
          rewrite Hrun
      end;
      destruct response as [o|]; run;
      try destruct (String.eqb (status o) "FILLED"); run;
      rewrite <- ?app_assoc;
      eexists; eexists; eexists;
      (split; [reflexivity|]);
      rewrite ?created_app, Hcreated; cbn [created flat_map app];
      (split; [reflexivity|split; reflexivity]).
Qed.

End WithBook.

Lemma limit_breach_only_reduces_witness :
  exists (out : Outcome Flow) (added : Trace) (p : OrderParams),
    trading_pass RiskSamples.oms "ETHUSDT" "BUY" (1 # 10) (3 # 2)
      (exchange (Ok []) accepted 2) []
    = (out, [] ++ added)
    /\ created added = [p] /\ p_side p = "SELL"%string /\ p_type p = "LIMIT"%string.
Proof.
  refine (proj1 (limit_breach_only_reduces (exchange (Ok []) accepted 2) _
                   RiskSamples.oms "ETHUSDT" "BUY" (1 # 10) (3 # 2) []) _).
  - intros tr. discriminate.
  - unfold Qle. simpl. lia.
Defined.

(** X9.  Without an order book a turn of the trading loop drops its signal:
    it returns without any order. *)
Theorem no_book_no_order (fuel : nat) (order_manager : OMS.t) (symbol_ : string)
    (max_limit_single_pair : Q) (env : Env) (tr : Trace)
    (df : list SignalGenerator.Candle) :
  klines_reply env tr = Ok df ->
  (60 <= length df)%nat ->
  (forall t : Trace, order_book env t = None) ->
  exists added,
    trading_iteration (S fuel) order_manager symbol_ max_limit_single_pair env tr
    = (Val tt, tr ++ added)
    /\ created added = [].
Proof.
  intros Hk Hlen Hnone.
  destruct (RejectionFacts.fresh_signal df Hlen)
    as (s & q & after & rest & Heval & Hgen & Hs & Hq).
  assert (Hnz : Qeqb q 0 = false) by (destruct Hq as [-> | ->]; reflexivity).
  unfold trading_iteration. run. rewrite Hk. run. rewrite Heval. run.
  rewrite Hgen. run. rewrite Hnz. cbn [negb fill_loop]. run.
  rewrite Hnone. run. rewrite <- app_assoc.
  eexists. split; reflexivity.
Qed.

Lemma no_book_no_order_witness :
  exists added,
    trading_iteration 1 RiskSamples.oms "ETHUSDT" (3 # 2)
      {| open_orders_reply := fun _ _ => Ok [];
         cancel_reply := fun _ _ _ => Raise (BinanceAPIException (-2011));
         create_reply := fun _ _ => accepted;
         klines_reply := fun _ => Ok (SignalGenerator.candles Samples.slump);
         global_position := fun _ => 0;
         order_book := fun _ => None |} []
    = (Val tt, [] ++ added)
    /\ created added = [].
Proof.
  apply (no_book_no_order 0 RiskSamples.oms "ETHUSDT" (3 # 2) _ []
           (SignalGenerator.candles Samples.slump)).
  - reflexivity.
  - vm_compute. lia.
  - intros t. reflexivity.
Defined.

(** X10.  Liquidating a position that is already flat (at most 0.5 in
    absolute value) returns at once: no request, no sleep, and the risk
    flag is set again. *)
Theorem flat_position_is_not_liquidated (fuel : nat) (self : RiskManagement.t)
    (liquid_ratio aggressive_level : Q) (env : Env) (tr : Trace) :
  Qabs (global_position env
          (tr ++ [Log WARNING "Risk Manager => Liquidating position"])) <= 1 # 2 ->
  liquidate_position (S fuel) self liquid_ratio false aggressive_level env tr
  = (Val (set_risk_flag self true),
     tr ++ [Log WARNING "Risk Manager => Liquidating position";
            Log INFO "Position sufficiently reduced"]).
Proof.
  intros Hflat. apply Qleb_iff in Hflat.
  unfold liquidate_position. cbn [liquidate_loop]. run. rewrite Hflat. run.
  now rewrite <- app_assoc.
Qed.

Lemma flat_position_is_not_liquidated_witness :
  liquidate_position 1 RiskSamples.peaked_200 (1 # 2) false (1 # 4)
    (exchange (Ok resting) accepted (2 # 5)) []
  = (Val (set_risk_flag RiskSamples.peaked_200 true),
     [] ++ [Log WARNING "Risk Manager => Liquidating position";
            Log INFO "Position sufficiently reduced"]).
Proof.
  apply flat_position_is_not_liquidated. unfold Qle. simpl. lia.
Defined.

(** X11.  The market path of a liquidation, run with a coordinator without
    asynchronous client, submits no order: it cancels what is open,
    logs the failed placement and returns with the risk flag down. *)
Theorem market_liquidation_sends_no_order (fuel : nat) (self : RiskManagement.t)
    (liquid_ratio aggressive_level : Q) (env : Env) (tr : Trace) :
  OMS.async_client (order_manager self) = false ->
  exists added,
    liquidate_position fuel self liquid_ratio true aggressive_level env tr
    = (Val (set_risk_flag self false), tr ++ added)
    /\ created added = [].
Proof.
  intros Hclient. unfold liquidate_position. run.
  match goal with
  | |- context [place_market_order_with_cancellation ?om ?sy ?q ?sd env ?t] =>
      destruct (managed_market_order_profile om env sy q sd t)
        as (response & added & Hrun & Hcreated & _);
      rewrite Hrun
  end.
  rewrite Hclient in Hcreated. rewrite <- app_assoc.
  eexists. split; [reflexivity|].
  rewrite created_app, Hcreated. reflexivity.
Qed.

Lemma market_liquidation_sends_no_order_witness :
  exists added,
    liquidate_position 1 RiskSamples.peaked_200 1 true (1 # 4)
      (exchange (Ok resting) accepted 2) []
    = (Val (set_risk_flag RiskSamples.peaked_200 false), [] ++ added)
    /\ created added = [].
Proof.
  apply market_liquidation_sends_no_order. reflexivity.
Defined.

End LoopExtras.

(** ** Orders that are accepted and never filled *)

Module SpinExtras.
Import OrderManagementSystem ExchangeSamples OrderFacts Measures PlacementExtras.
Import RiskManagement Main.

Ltac run :=
  cbv beta iota zeta
      delta [bind ret raise hang observe emit logging sleep lift request try_except
             read_position get_order_book book_best_bid book_best_ask status_is].

Section Unfilled.

Variable env : Env.

(** Every new order is accepted, none is reported filled. *)
Hypothesis accepts :
  forall (tr : Trace) (p : OrderParams),
    exists o : Order, create_reply env tr p = Ok o
                      /\ String.eqb (status o) "FILLED" = false.

Hypothesis book_there : forall tr : Trace, order_book env tr <> None.

Lemma managed_limit_order_unfilled (self : OMS.t) (symbol_ : string)
    (price quantity : Q) (side : string) (tr : Trace) :
  exists (o : Order) (added : Trace),
    place_limit_order_with_cancellation self symbol_ price quantity side env tr
    = (Val (Some o), tr ++ added)
    /\ String.eqb (status o) "FILLED" = false
    /\ length (created added) = 1%nat.
Proof.
  destruct (cancel_all_open_orders_profile self env symbol_ tr)
    as (added & Hrun & _ & Hcreated).
  unfold place_limit_order_with_cancellation. unfold bind at 1. rewrite Hrun.
  destruct (match open_orders_reply env tr symbol_ with Ok (_ :: _) => true | _ => false end);
    unfold bind, logging, sleep, emit, ret;
    rewrite place_limit_order_run; cbv zeta;
    match goal with
    | |- context [create_reply env ?t ?p] =>
        destruct (accepts t p) as (o & Hc & Hst); rewrite Hc
    end;
    rewrite <- ?app_assoc; exists o; eexists;
    (split; [reflexivity|]); (split; [exact Hst|]);
    rewrite !created_app, Hcreated; reflexivity.
Qed.

Lemma trading_pass_unfilled (order_manager : OMS.t) (symbol_ side : string)
    (quantity max_limit_single_pair : Q) (tr : Trace) :
  side = "BUY"%string \/ side = "SELL"%string ->
  exists added,
    trading_pass order_manager symbol_ side quantity max_limit_single_pair env tr
    = (Val Continue, tr ++ added)
    /\ length (created added) = 1%nat.
Proof.
  intros Hside. unfold trading_pass. run.
  destruct (Qgeb (global_position env tr) max_limit_single_pair);
    [|destruct (Qleb (global_position env tr) (- max_limit_single_pair))];
    destruct Hside as [-> | ->]; cbn [String.eqb Ascii.eqb Bool.eqb andb]; run;
    match goal with
    | |- context [order_book env ?t] =>
        destruct (order_book env t) as [b|] eqn:Hb; [|exfalso; exact (book_there t Hb)]
    end;
    run;
    match goal with
    | |- context [place_limit_order_with_cancellation ?om ?sy ?p ?q ?sd env ?t] =>
        destruct (managed_limit_order_unfilled om sy p q sd t)
          as (o & added & Hrun & Hst & Hcreated);
        rewrite Hrun
    end;
    run; rewrite Hst; run;
    rewrite <- ?app_assoc; eexists; (split; [reflexivity|]);
    rewrite ?created_app, ?Hcreated; cbn [created flat_map app length];
    rewrite ?Hcreated; reflexivity.
Qed.

Lemma fill_loop_spins (order_manager : OMS.t) (symbol_ side : string)
    (quantity max_limit_single_pair : Q) :
  side = "BUY"%string \/ side = "SELL"%string ->
  forall (fuel : nat) (tr : Trace),
  exists added,
    fill_loop fuel order_manager symbol_ side quantity max_limit_single_pair env tr
    = (Hang, tr ++ added)
    /\ length (created added) = fuel.
Proof.
  intros Hside. induction fuel as [|fuel IH]; intros tr.
  - exists []. rewrite app_nil_r. split; reflexivity.
  - cbn [fill_loop]. unfold bind at 1. unfold get_order_book, observe.
    destruct (order_book env tr) as [b|] eqn:Hb; [|exfalso; exact (book_there tr Hb)].
    unfold bind at 1.
    destruct (trading_pass_unfilled order_manager symbol_ side quantity
                max_limit_single_pair tr Hside) as (added & Hrun & Hone).
    rewrite Hrun. destruct (IH (tr ++ added)) as (more & Hloop & Hmore).
    rewrite Hloop. exists (added ++ more).
    split; [now rewrite app_assoc|].
    rewrite created_app, length_app, Hone, Hmore. reflexivity.
Qed.

(** The position stays too large to count as flat. *)
Hypothesis exposed : forall tr : Trace, 1 # 2 < Qabs (global_position env tr).

Lemma liquidate_loop_spins (self : RiskManagement.t) (liquid_ratio aggressive_level : Q) :
  forall (fuel : nat) (tr : Trace),
  exists added,
    liquidate_loop fuel self liquid_ratio aggressive_level env tr = (Hang, tr ++ added)
    /\ length (created added) = fuel.
Proof.
  induction fuel as [|fuel IH]; intros tr.
  - exists []. rewrite app_nil_r. split; reflexivity.
  - cbn [liquidate_loop]. run.
    pose proof (exposed tr) as Hexp. apply Qleb_false_iff in Hexp. rewrite Hexp.
    destruct (order_book env tr) as [b|] eqn:Hb; [|exfalso; exact (book_there tr Hb)].
    destruct (Qgtb (global_position env tr) 0);
      match goal with
      | |- context [place_limit_order_with_cancellation ?om ?sy ?p ?q ?sd env ?t] =>
          destruct (managed_limit_order_unfilled om sy p q sd t)
            as (o & added & Hrun & Hst & Hcreated);
          rewrite Hrun
      end;
      run; rewrite Hst; run;
      match goal with
      | |- context [liquidate_loop fuel _ _ _ env ?t] =>
          destruct (IH t) as (more & Hloop & Hmore); rewrite Hloop
      end;
      rewrite <- ?app_assoc; eexists; (split; [reflexivity|]);
      rewrite ?created_app, ?length_app, Hcreated, Hmore; cbn [created flat_map app length];
      lia.
Qed.

End Unfilled.

(** X12.  While the exchange accepts every order without filling it, the
    inner loop of a trading turn never ends: for every number of turns
    allowed it is still running, and has by then submitted that many orders
    for the one signal. *)
Theorem unfilled_signal_is_requoted_forever (env : Env) (order_manager : OMS.t)
    (symbol_ : string) (max_limit_single_pair : Q) (tr : Trace)
    (df : list SignalGenerator.Candle) :
  (forall (t : Trace) (p : OrderParams),
     exists o : Order, create_reply env t p = Ok o
                       /\ String.eqb (status o) "FILLED" = false) ->
  (forall t : Trace, order_book env t <> None) ->
  klines_reply env tr = Ok df ->
  (60 <= length df)%nat ->
  forall fuel : nat,
  exists added,
    trading_iteration fuel order_manager symbol_ max_limit_single_pair env tr
    = (Hang, tr ++ added)
    /\ length (created added) = fuel.
Proof.
  intros Hacc Hbook Hk Hlen fuel.
  destruct (RejectionFacts.fresh_signal df Hlen)
    as (s & q & after & rest & Heval & Hgen & Hs & Hq).
  assert (Hnz : Qeqb q 0 = false) by (destruct Hq as [-> | ->]; reflexivity).
  unfold trading_iteration. run. rewrite Hk. run. rewrite Heval. run.
  rewrite Hgen. run. rewrite Hnz. cbn [negb].
  match goal with
  | |- context [fill_loop fuel ?om ?sy ?sd ?qq ?lim env ?t] =>
      destruct (fill_loop_spins env Hacc Hbook om sy sd qq lim Hs fuel t)
        as (added & Hrun & Hn);
      rewrite Hrun
  end.
  rewrite <- ?app_assoc. eexists. split; [reflexivity|].
  rewrite !created_app, !length_app, Hn. reflexivity.
Qed.

Lemma unfilled_signal_is_requoted_forever_witness :
  exists added,
    trading_iteration 3 RiskSamples.oms "ETHUSDT" (3 # 2)
      (exchange (Ok []) accepted 0) []
    = (Hang, [] ++ added)
    /\ length (created added) = 3%nat.
Proof.
  apply (unfilled_signal_is_requoted_forever (exchange (Ok []) accepted 0)
           RiskSamples.oms "ETHUSDT" (3 # 2) [] (SignalGenerator.candles Samples.slump)).
  - intros t p. eexists. split; reflexivity.
  - intros t. discriminate.
  - reflexivity.
  - vm_compute. lia.
Defined.

(** X13.  While the exchange accepts every order without filling it and the
    position stays above 0.5 in absolute value, a limit liquidation never
    ends: for every number of turns allowed it is still running, and has
    by then submitted that many orders. *)
Theorem unfilled_liquidation_never_ends (env : Env) (self : RiskManagement.t)
    (liquid_ratio aggressive_level : Q) (tr : Trace) :
  (forall (t : Trace) (p : OrderParams),
     exists o : Order, create_reply env t p = Ok o
                       /\ String.eqb (status o) "FILLED" = false) ->
  (forall t : Trace, order_book env t <> None) ->
  (forall t : Trace, 1 # 2 < Qabs (global_position env t)) ->
  forall fuel : nat,
  exists added,
    liquidate_position fuel self liquid_ratio false aggressive_level env tr
    = (Hang, tr ++ added)
    /\ length (created added) = fuel.
Proof.
  intros Hacc Hbook Hexp fuel. unfold liquidate_position. run.
  match goal with
  | |- context [liquidate_loop fuel ?sf ?r ?a env ?t] =>
      destruct (liquidate_loop_spins env Hacc Hbook Hexp sf r a fuel t)
        as (added & Hrun & Hn);
      rewrite Hrun
  end.
  rewrite <- ?app_assoc. eexists. split; [reflexivity|].
  rewrite !created_app, !length_app, Hn. reflexivity.
Qed.

Lemma unfilled_liquidation_never_ends_witness :
  exists added,
    liquidate_position 3 RiskSamples.peaked_200 (1 # 2) false (1 # 4)
      (exchange (Ok []) accepted 2) []
    = (Hang, [] ++ added)
    /\ length (created added) = 3%nat.
Proof.
  apply (unfilled_liquidation_never_ends (exchange (Ok []) accepted 2)).
  - intros t p. eexists. split; reflexivity.
  - intros t. discriminate.
  - intros t. reflexivity.
Defined.

End SpinExtras.

(** ** The risk cycle: what it keeps and in which order it acts *)

Module RiskExtras.
Import RiskManagement RiskSamples RiskFacts.

Lemma track_peak_config (self : t) (rp : Q) :
  symbol (track_peak self rp) = symbol self
  /\ take_profit_pnl (track_peak self rp) = take_profit_pnl self
  /\ max_notional_portfolio (track_peak self rp) = max_notional_portfolio self
  /\ max_direct_loss (track_peak self rp) = max_direct_loss self
  /\ max_draw_down (track_peak self rp) = max_draw_down self
  /\ risk_flag (track_peak self rp) = risk_flag self
  /\ order_manager (track_peak self rp) = order_manager self.
Proof.
  unfold track_peak. destruct (Qleb (max_pnl self) rp); repeat split; reflexivity.
Qed.

Lemma cycle_state (self : t) (o : CycleObs) :
  fst (apply_risk_management_open_position_and_portfolio self o) = self
  \/ fst (apply_risk_management_open_position_and_portfolio self o)
     = track_peak self (obs_realized_pnl o).
Proof.
  unfold apply_risk_management_open_position_and_portfolio.
  destruct (obs_entryPrice o); [|now left].
  destruct (obs_book o); [|now left].
  destruct (obs_book_195 o); [|now left].
  destruct (drawdown_check _ _); [destruct (obs_book_213 o)|]; now right.
Qed.

(** X14.  The statements of a cycle never lower the tracked peak of
    realized PnL -- after them the peak is the old one or the realized PnL
    just read -- and they leave every threshold, the symbol and the order
    coordinator as they were. *)
Theorem cycle_keeps_peak_and_thresholds (self : t) (o : CycleObs) :
  let after := fst (apply_risk_management_open_position_and_portfolio self o) in
  max_pnl self <= max_pnl after
  /\ (max_pnl after = max_pnl self \/ max_pnl after = obs_realized_pnl o)
  /\ symbol after = symbol self
  /\ take_profit_pnl after = take_profit_pnl self
  /\ max_notional_portfolio after = max_notional_portfolio self
  /\ max_direct_loss after = max_direct_loss self
  /\ max_draw_down after = max_draw_down self
  /\ order_manager after = order_manager self.
Proof.
  intros after. subst after.
  destruct (cycle_state self o) as [-> | ->].
  - split; [apply Qle_refl|]. split; [now left|]. repeat split; reflexivity.
  - split; [exact (proj1 (track_peak_bounds self _))|].
    split.
    + destruct (track_peak_cases self (obs_realized_pnl o)) as [[_ ->]|[_ ->]];
        simpl; auto.
    + destruct (track_peak_config self (obs_realized_pnl o))
        as (H1 & H2 & H3 & H4 & H5 & _ & H7).
      repeat split; assumption.
Qed.

(** X15.  A cycle that finds no position row or no order book liquidates
    nothing and leaves the controller as it was: the peak is not tracked in
    that cycle, whatever the realized PnL. *)
Theorem blind_cycle_does_nothing (self : t) (o : CycleObs) :
  obs_entryPrice o = None \/ obs_book o = None ->
  fst (apply_risk_management_open_position_and_portfolio self o) = self
  /\ forall (ratio : Q) (type : bool) (aggressive_level : Q),
       ~ In (Liquidate ratio type aggressive_level)
            (snd (apply_risk_management_open_position_and_portfolio self o)).
Proof.
  intros Hblind. unfold apply_risk_management_open_position_and_portfolio.
  destruct (obs_entryPrice o) as [E|].
  - destruct Hblind as [Hblind|Hblind]; [discriminate|]. rewrite Hblind.
    split; [reflexivity|]. intros ratio type a [H|[]]. discriminate H.
  - split; [reflexivity|]. intros ratio type a [H|[H|[]]]; discriminate H.
Qed.

Lemma blind_cycle_does_nothing_witness :
  fst (apply_risk_management_open_position_and_portfolio peaked_200
         {| obs_position := 1; obs_entryPrice := Some 3000; obs_book := None;
            obs_realized_pnl_logged := 500; obs_book_195 := true;
            obs_realized_pnl := 500; obs_book_213 := true |})
  = peaked_200.
Proof.
  refine (proj1 (blind_cycle_does_nothing peaked_200 _ _)). now right.
Defined.







End RiskExtras.

(** ** The signal engine: the hand-over and the range of the RSI *)

Module SignalExtras.
Import SignalGenerator Queued SignalFacts.

(** X19.  A fresh generator over at least 60 candles queues exactly one
    pair; [generate_signal] hands that pair over, records it as side and
    quantity and leaves the queue empty, so that a second call would wait
    for good. *)
Theorem long_frame_yields_one_signal (df : list Candle) :
  (60 <= length df)%nat ->
  exists (s : string) (q : Q),
    evaluate_signals (init df) = Ok (put (s, q) (init df))
    /\ generate_signal (put (s, q) (init df))
       = Some ((s, q), {| candles := df; order_queue := []; side := Some s;
                          quantity := q |})
    /\ generate_signal {| candles := df; order_queue := []; side := Some s;
                          quantity := q |} = None.
Proof.
  intros Hlen.
  destruct (evaluate_signals_queued (init df)) as (new & Heval & Hq).
  assert (Hone : exists s q, new = [(s, q)]).
  { destruct Hq; try (eexists; eexists; reflexivity).
    cbn [candles init] in *. lia. }
  destruct Hone as (s & q & ->).
  exists s, q. split; [exact Heval|]. split; reflexivity.
Qed.

Lemma long_frame_yields_one_signal_witness :
  exists (s : string) (q : Q),
    evaluate_signals (init (candles Samples.zigzag))
    = Ok (put (s, q) (init (candles Samples.zigzag))).
Proof.
  destruct (long_frame_yields_one_signal (candles Samples.zigzag)) as (s & q & H & _).
  - vm_compute. lia.
  - exists s, q. exact H.
Defined.

Lemma in_skipn_list {A : Type} (n : nat) (l : list A) (x : A) :
  In x (skipn n l) -> In x l.
Proof.
  revert l. induction n as [|n IH]; intros [|a l]; cbn [skipn]; auto.
  intros H. right. now apply IH.
Qed.

Lemma in_firstn_list {A : Type} (n : nat) (l : list A) (x : A) :
  In x (firstn n l) -> In x l.
Proof.
  revert l. induction n as [|n IH]; intros [|a l]; cbn [firstn]; auto.
  - intros [].
  - intros [H|H]; [now left|right; now apply IH].
Qed.

Lemma Qsum_nonneg (l : list Q) : (forall x, In x l -> 0 <= x) -> 0 <= Qsum l.
Proof.
  induction l as [|a l IH]; intros H; cbn [Qsum fold_right].
  - apply Qle_refl.
  - fold (Qsum l).
    assert (0 <= a) by (apply H; now left).
    assert (0 <= Qsum l) by (apply IH; intros x Hx; apply H; now right).
    lra.
Qed.

Lemma rolling_mean_nonneg (window : nat) (l : list Q) (v : Q) :
  (forall x, In x l -> 0 <= x) ->
  In (Some v) (rolling_mean window 1 l) -> 0 <= v.
Proof.
  intros Hl Hin. unfold rolling_mean in Hin. apply in_map_iff in Hin.
  destruct Hin as (i & Hv & _). unfold window_mean in Hv.
  destruct (length (lastn window (firstn (S i) l)) <? 1)%nat; [discriminate|].
  injection Hv as <-. unfold Qdiv. apply Qmult_le_0_compat.
  - apply Qsum_nonneg. intros x Hx. apply Hl.
    exact (in_firstn_list (S i) l x (in_skipn_list _ _ x Hx)).
  - apply Qinv_le_0_compat. change 0 with (inject_Z 0). rewrite <- Zle_Qle. lia.
Qed.

Lemma in_map2 {A B C : Type} (f : A -> B -> C) (l1 : list A) (l2 : list B) (c : C) :
  In c (map2 f l1 l2) -> exists a b, In a l1 /\ In b l2 /\ c = f a b.
Proof.
  revert l2. induction l1 as [|a l1 IH]; intros [|b l2]; cbn [map2 In];
    try contradiction.
  intros [<- | Hin].
  - exists a, b. repeat split; now left.
  - destruct (IH _ Hin) as (a' & b' & Ha & Hb & ->).
    exists a', b'. repeat split; now right.
Qed.

Lemma iloc_m1_in {A : Type} (l : list A) (v : A) : iloc_m1 l = Ok v -> In v l.
Proof.
  unfold iloc_m1, iloc_last. destruct (rev l) as [|x tl] eqn:E; [discriminate|].
  intros [= <-]. apply in_rev. rewrite E. now left.
Qed.

(** The RSI of non-negative average gain and loss. *)
Lemma rsi_of_averages (g l : option Q) :
  (forall x, g = Some x -> 0 <= x) ->
  (forall y, l = Some y -> 0 <= y) ->
  let rsi := fsub (Fin 100) (fdiv (Fin 100) (fadd (Fin 1) (fdiv (of_option g) (of_option l)))) in
  rsi = NaN \/ exists r : Q, rsi = Fin r /\ 0 <= r /\ r <= 100.
Proof.
  intros Hg Hl rsi. subst rsi.
  destruct g as [x|]; [|now left]. destruct l as [y|]; [|now left].
  specialize (Hg x eq_refl). specialize (Hl y eq_refl).
  cbn [of_option fdiv].
  destruct (Qeqb y 0) eqn:Hy.
  - destruct (Qeqb x 0); [now left|].
    destruct (Qltb 0 x) eqn:Hx.
    + right. eexists. split; [reflexivity|]. split; lra.
    + apply Qltb_false_iff in Hx.
      right. cbn. eexists. split; [reflexivity|]. split; lra.
  - assert (Hypos : 0 < y).
    { destruct (Qeq_dec y 0) as [Hz|Hnz].
      - apply Qeqb_iff in Hz. congruence.
      - apply Qle_lteq in Hl. destruct Hl as [Hl|Hl]; [exact Hl|].
        exfalso. apply Hnz. now symmetry. }
    assert (Hq : 0 <= x / y).
    { unfold Qdiv. apply Qmult_le_0_compat; [exact Hg|].
      now apply Qlt_le_weak, Qinv_lt_0_compat. }
    cbn [fadd fdiv].
    set (q := x / y) in *. clearbody q.
    assert (Hone : Qeqb (1 + q) 0 = false).
    { destruct (Qeqb (1 + q) 0) eqn:E; [|reflexivity].
      apply Qeqb_iff in E. lra. }
    rewrite Hone. right. cbn [fsub fneg fadd]. eexists. split; [reflexivity|].
    assert (Hpos : 0 < 1 + q) by lra.
    assert (Hinv : 0 < / (1 + q)) by now apply Qinv_lt_0_compat.
    assert (Hle : 100 / (1 + q) <= 100).
    { apply Qle_shift_div_r; [exact Hpos|]. lra. }
    assert (Hge : 0 <= 100 / (1 + q)).
    { unfold Qdiv. apply Qmult_le_0_compat; [lra|now apply Qlt_le_weak]. }
    set (d := 100 / (1 + q)) in *. clearbody d.
    split; lra.
Qed.

Lemma gains_nonneg (delta : Series) (x : Q) :
  In x (where_ (fun d => Qgtb d 0) delta) -> 0 <= x.
Proof.
  unfold where_. intros Hin. apply in_map_iff in Hin.
  destruct Hin as ([d|] & <- & _); [|apply Qle_refl].
  destruct (Qgtb d 0) eqn:E; [|apply Qle_refl].
  unfold Qgtb in E. apply Qltb_iff in E. now apply Qlt_le_weak.
Qed.

Lemma losses_nonneg (delta : Series) (x : Q) :
  In x (map Qopp (where_ (fun d => Qltb d 0) delta)) -> 0 <= x.
Proof.
  intros Hin. apply in_map_iff in Hin. destruct Hin as (y & <- & Hy).
  unfold where_ in Hy. apply in_map_iff in Hy.
  destruct Hy as ([d|] & <- & _); [|now vm_compute].
  destruct (Qltb d 0) eqn:E; [|now vm_compute].
  apply Qltb_iff in E. lra.
Qed.

(** X20.  Whatever the candles, the RSI that [calculate_rsi] returns is NaN
    or a number from 0 to 100. *)
Theorem rsi_is_a_percentage (self : t) (period : nat) (rsi : fnum) :
  calculate_rsi self period = Ok rsi ->
  rsi = NaN \/ exists r : Q, rsi = Fin r /\ 0 <= r /\ r <= 100.
Proof.
  intros Hrsi. apply iloc_m1_in in Hrsi. unfold rsi_series in Hrsi.
  apply in_map_iff in Hrsi. destruct Hrsi as (rs & <- & Hrs).
  apply in_map2 in Hrs. destruct Hrs as (g & l & Hg & Hl & ->).
  apply rsi_of_averages.
  - intros x ->. eapply rolling_mean_nonneg; [|exact Hg]. apply gains_nonneg.
  - intros y ->. eapply rolling_mean_nonneg; [|exact Hl]. apply losses_nonneg.
Qed.

Lemma rsi_is_a_percentage_witness :
  exists r : Q, Fin (9800 # 196) = Fin r /\ 0 <= r /\ r <= 100.
Proof.
  destruct (rsi_is_a_percentage Samples.zigzag 14 (Fin (9800 # 196))) as [H|H].
  - vm_compute. reflexivity.
  - discriminate H.
  - exact H.
Defined.

Lemma iloc_m1_snoc {A : Type} (l : list A) (x : A) : iloc_m1 (l ++ [x]) = Ok x.
Proof. unfold iloc_m1, iloc_last. now rewrite rev_unit. Qed.

Lemma snoc_of_nonempty {A : Type} (l : list A) :
  l <> [] -> exists front x, l = front ++ [x].
Proof.
  intros Hne. destruct (exists_last Hne) as (front & x & ->). now exists front, x.
Qed.

Lemma rolling_mean_last (window min_periods : nat) (l : list Q) :
  l <> [] ->
  iloc_m1 (rolling_mean window min_periods l) = Ok (window_mean window min_periods l).
Proof.
  intros Hne. unfold rolling_mean.
  destruct (length l) as [|k] eqn:Hlen.
  - exfalso. apply Hne. now apply length_zero_iff_nil.
  - rewrite seq_S, map_app. cbn [map Nat.add]. rewrite iloc_m1_snoc.
    rewrite <- Hlen, firstn_all. reflexivity.
Qed.

Lemma map2_snoc {A B C : Type} (f : A -> B -> C) (l1 : list A) (l2 : list B)
    (a : A) (b : B) :
  length l1 = length l2 ->
  map2 f (l1 ++ [a]) (l2 ++ [b]) = map2 f l1 l2 ++ [f a b].
Proof.
  revert l2. induction l1 as [|x l1 IH]; intros [|y l2] Hlen; try discriminate Hlen.
  - reflexivity.
  - cbn [app map2]. f_equal. apply IH. now injection Hlen.
Qed.

Lemma iloc_m1_unique {A : Type} (l : list A) (front : list A) (x : A) :
  l = front ++ [x] -> iloc_m1 l = Ok x.
Proof. intros ->. apply iloc_m1_snoc. Qed.

(** The last row of the RSI column, from the two last averages. *)
Lemma calculate_rsi_last (self : t) (period : nat) :
  candles self <> [] ->
  let delta := diff (closes self) in
  let gain := where_ (fun d => Qgtb d 0) delta in
  let loss := map Qopp (where_ (fun d => Qltb d 0) delta) in
  calculate_rsi self period
  = Ok (fsub (Fin 100)
          (fdiv (Fin 100)
             (fadd (Fin 1)
                (fdiv (of_option (window_mean period 1 gain))
                      (of_option (window_mean period 1 loss)))))).
Proof.
  intros Hrows delta gain loss.
  assert (Hlen : length gain = length loss).
  { unfold gain, loss. now rewrite length_map, !where_length. }
  assert (Hg : gain <> []).
  { intros Hnil. apply Hrows. apply length_zero_iff_nil.
    rewrite <- closes_length, <- diff_length. fold delta.
    rewrite <- (where_length (fun d => Qgtb d 0)). fold gain. now rewrite Hnil. }
  assert (Hl : loss <> []).
  { intros Hnil. apply Hg. apply length_zero_iff_nil. now rewrite Hlen, Hnil. }
  pose proof (rolling_mean_last period 1 gain Hg) as Hlg.
  pose proof (rolling_mean_last period 1 loss Hl) as Hll.
  assert (Hag : rolling_mean period 1 gain <> []).
  { intros Hnil. apply Hg. apply length_zero_iff_nil.
    now rewrite <- (rolling_mean_length period 1), Hnil. }
  assert (Hal : rolling_mean period 1 loss <> []).
  { intros Hnil. apply Hl. apply length_zero_iff_nil.
    now rewrite <- (rolling_mean_length period 1), Hnil. }
  destruct (snoc_of_nonempty _ Hag) as (fg & g & Efg).
  destruct (snoc_of_nonempty _ Hal) as (fl & l & Efl).
  rewrite Efg, iloc_m1_snoc in Hlg. rewrite Efl, iloc_m1_snoc in Hll.
  injection Hlg as Hg'. injection Hll as Hl'.
  unfold calculate_rsi, rsi_series. fold delta gain loss.
  rewrite Efg, Efl, map2_snoc, map_app.
  - cbn [map]. rewrite iloc_m1_snoc, Hg', Hl'. reflexivity.
  - apply (f_equal (@length _)) in Efg, Efl.
    rewrite rolling_mean_length, length_app in Efg, Efl. cbn [length] in Efg, Efl. lia.
Qed.

Lemma diff_from_app (prev x : Q) (front tl : list Q) :
  diff_from prev (front ++ x :: tl) = diff_from prev (front ++ [x]) ++ diff_from x tl.
Proof.
  revert prev. induction front as [|a front IH]; intros prev; cbn [app diff_from].
  - reflexivity.
  - now rewrite IH.
Qed.

Lemma diff_app (x : Q) (front tl : list Q) :
  diff (front ++ x :: tl) = diff (front ++ [x]) ++ diff_from x tl.
Proof.
  destruct front as [|a front]; cbn [app diff]; [reflexivity|].
  now rewrite diff_from_app.
Qed.

Lemma lastn_app_exact {A : Type} (a b : list A) : lastn (length b) (a ++ b) = b.
Proof.
  unfold lastn. rewrite length_app.
  replace (length a + length b - length b)%nat with (length a) by lia.
  rewrite skipn_app, skipn_all, Nat.sub_diag. reflexivity.
Qed.

(** The averages over the last [length tl] changes when the closes end in
    [x :: tl]. *)
Lemma window_mean_of_tail (cond : Q -> bool) (post : Q -> Q) (x : Q)
    (front tl : list Q) :
  tl <> [] ->
  window_mean (length tl) 1 (map post (where_ cond (diff (front ++ x :: tl))))
  = Some (Qsum (map post (where_ cond (diff_from x tl)))
          / inject_Z (Z.of_nat (length tl))).
Proof.
  intros Hne. rewrite diff_app. unfold where_ at 1. rewrite !map_app.
  fold (where_ cond (diff (front ++ [x]))). fold (where_ cond (diff_from x tl)).
  unfold window_mean.
  assert (Hlen : length (map post (where_ cond (diff_from x tl))) = length tl).
  { now rewrite length_map, where_length, diff_from_length. }
  assert (Hlast : lastn (length tl)
                    (map post (where_ cond (diff (front ++ [x])))
                     ++ map post (where_ cond (diff_from x tl)))
                  = map post (where_ cond (diff_from x tl))).
  { rewrite <- Hlen. apply lastn_app_exact. }
  rewrite Hlast, Hlen.
  destruct tl as [|y tl]; [contradiction|]. reflexivity.
Qed.

Import Trends.

Lemma rising_gain_sum (x : Q) (tl : list Q) :
  rising_from x tl -> tl <> [] ->
  0 < Qsum (where_ (fun d => Qgtb d 0) (diff_from x tl)).
Proof.
  intros Hrise Hne. destruct tl as [|y tl]; [contradiction|].
  destruct Hrise as [Hxy _]. cbn [diff_from where_ map Qsum fold_right].
  fold (where_ (fun d => Qgtb d 0) (diff_from y tl)).
  fold (Qsum (where_ (fun d => Qgtb d 0) (diff_from y tl))).
  assert (Hpos : Qgtb (y - x) 0 = true) by (unfold Qgtb; apply Qltb_iff; lra).
  rewrite Hpos.
  pose proof (Qsum_nonneg _ (gains_nonneg (diff_from y tl))). lra.
Qed.

Lemma rising_loss_sum (x : Q) (tl : list Q) :
  rising_from x tl ->
  Qsum (map Qopp (where_ (fun d => Qltb d 0) (diff_from x tl))) == 0.
Proof.
  revert x. induction tl as [|y tl IH]; intros x Hrise; [reflexivity|].
  destruct Hrise as [Hxy Hrest]. cbn [diff_from where_ map Qsum fold_right].
  fold (where_ (fun d => Qltb d 0) (diff_from y tl)).
  fold (Qsum (map Qopp (where_ (fun d => Qltb d 0) (diff_from y tl)))).
  assert (Hneg : Qltb (y - x) 0 = false) by (apply Qltb_false_iff; lra).
  rewrite Hneg, (IH y Hrest). reflexivity.
Qed.

Lemma falling_loss_sum (x : Q) (tl : list Q) :
  falling_from x tl -> tl <> [] ->
  0 < Qsum (map Qopp (where_ (fun d => Qltb d 0) (diff_from x tl))).
Proof.
  intros Hfall Hne. destruct tl as [|y tl]; [contradiction|].
  destruct Hfall as [Hxy _]. cbn [diff_from where_ map Qsum fold_right].
  fold (where_ (fun d => Qltb d 0) (diff_from y tl)).
  fold (Qsum (map Qopp (where_ (fun d => Qltb d 0) (diff_from y tl)))).
  assert (Hneg : Qltb (y - x) 0 = true) by (apply Qltb_iff; lra).
  rewrite Hneg.
  pose proof (Qsum_nonneg _ (losses_nonneg (diff_from y tl))). lra.
Qed.

Lemma falling_gain_sum (x : Q) (tl : list Q) :
  falling_from x tl ->
  Qsum (where_ (fun d => Qgtb d 0) (diff_from x tl)) == 0.
Proof.
  revert x. induction tl as [|y tl IH]; intros x Hfall; [reflexivity|].
  destruct Hfall as [Hxy Hrest]. cbn [diff_from where_ map Qsum fold_right].
  fold (where_ (fun d => Qgtb d 0) (diff_from y tl)).
  fold (Qsum (where_ (fun d => Qgtb d 0) (diff_from y tl))).
  assert (Hpos : Qgtb (y - x) 0 = false) by (unfold Qgtb; apply Qltb_false_iff; lra).
  rewrite Hpos, (IH y Hrest). reflexivity.
Qed.

(** The two averages of [calculate_rsi] when the closes end in [x :: tl]
    with [tl] of the length of the period. *)
Lemma averages_of_tail (self : t) (x : Q) (front tl : list Q) :
  closes self = front ++ x :: tl ->
  tl <> [] ->
  let k := inject_Z (Z.of_nat (length tl)) in
  calculate_rsi self (length tl)
  = Ok (fsub (Fin 100)
          (fdiv (Fin 100)
             (fadd (Fin 1)
                (fdiv (Fin (Qsum (where_ (fun d => Qgtb d 0) (diff_from x tl)) / k))
                      (Fin (Qsum (map Qopp (where_ (fun d => Qltb d 0) (diff_from x tl)))
                            / k)))))).
Proof.
  intros Hc Hne k.
  assert (Hrows : candles self <> []).
  { intros Hnil. apply (f_equal (@length _)) in Hc.
    rewrite closes_length, Hnil, length_app in Hc. cbn [length] in Hc. lia. }
  rewrite (calculate_rsi_last self (length tl) Hrows). cbv zeta. rewrite Hc.
  rewrite (window_mean_of_tail (fun d => Qltb d 0) Qopp x front tl Hne).
  pose proof (window_mean_of_tail (fun d => Qgtb d 0) (fun q => q) x front tl Hne) as Hg.
  rewrite !map_id in Hg. rewrite Hg. reflexivity.
Qed.

Lemma period_positive (tl : list Q) :
  length tl = 14%nat -> 0 < inject_Z (Z.of_nat (length tl)).
Proof. intros ->. reflexivity. Qed.

(** X21.  On a window of at least 60 candles whose last fifteen closes rise
    strictly, the RSI is 100 and the call queues SELL at the base quantity;
    when they fall strictly, the RSI is 0 and it queues BUY at the base
    quantity. *)
Theorem trend_is_faded (self : t) (x : Q) (front tl : list Q) :
  (60 <= length (candles self))%nat ->
  closes self = front ++ x :: tl ->
  length tl = 14%nat ->
  (rising_from x tl ->
   (exists r : Q, calculate_rsi self 14 = Ok (Fin r) /\ r == 100)
   /\ evaluate_signals self = Ok (put ("SELL"%string, base_quantity) self))
  /\ (falling_from x tl ->
      (exists r : Q, calculate_rsi self 14 = Ok (Fin r) /\ r == 0)
      /\ evaluate_signals self = Ok (put ("BUY"%string, base_quantity) self)).
Proof.
  intros Hlen Hc H14.
  assert (Hne : tl <> []) by (intros ->; discriminate H14).
  pose proof (period_positive tl H14) as Hk.
  pose proof (averages_of_tail self x front tl Hc Hne) as Hrsi. cbv zeta in Hrsi.
  rewrite H14 in Hrsi at 1.
  assert (Hshort : (length (candles self) <? 60)%nat = false) by now apply Nat.ltb_ge.
  set (k := inject_Z (Z.of_nat (length tl))) in *.
  assert (Hknz : ~ k == 0) by (intros Hz; rewrite Hz in Hk; exact (Qlt_irrefl 0 Hk)).
  split.
  - intros Hrise.
    pose proof (rising_gain_sum x tl Hrise Hne) as Hg.
    pose proof (rising_loss_sum x tl Hrise) as Hl.
    set (sg := Qsum (where_ (fun d => Qgtb d 0) (diff_from x tl))) in *.
    set (sl := Qsum (map Qopp (where_ (fun d => Qltb d 0) (diff_from x tl)))) in *.
    assert (Hl0 : Qeqb (sl / k) 0 = true).
    { apply Qeqb_iff. rewrite Hl. field. exact Hknz. }
    assert (Hgpos : 0 < sg / k).
    { apply Qlt_shift_div_l; [exact Hk|]. lra. }
    assert (Hg0 : Qeqb (sg / k) 0 = false).
    { destruct (Qeqb (sg / k) 0) eqn:E; [|reflexivity].
      apply Qeqb_iff in E. rewrite E in Hgpos. exfalso. exact (Qlt_irrefl 0 Hgpos). }
    assert (Hgt : Qltb 0 (sg / k) = true) by now apply Qltb_iff.
    cbn [fdiv] in Hrsi. rewrite Hl0, Hg0, Hgt in Hrsi.
    cbn [fadd fdiv fsub fneg] in Hrsi.
    split.
    + eexists. split; [exact Hrsi|]. reflexivity.
    + unfold evaluate_signals. rewrite Hshort. unfold signal_rsi. rewrite Hrsi.
      reflexivity.
  - intros Hfall.
    pose proof (falling_loss_sum x tl Hfall Hne) as Hl.
    pose proof (falling_gain_sum x tl Hfall) as Hg.
    set (sg := Qsum (where_ (fun d => Qgtb d 0) (diff_from x tl))) in *.
    set (sl := Qsum (map Qopp (where_ (fun d => Qltb d 0) (diff_from x tl)))) in *.
    assert (Hlpos : 0 < sl / k).
    { apply Qlt_shift_div_l; [exact Hk|]. lra. }
    assert (Hl0 : Qeqb (sl / k) 0 = false).
    { destruct (Qeqb (sl / k) 0) eqn:E; [|reflexivity].
      apply Qeqb_iff in E. rewrite E in Hlpos. exfalso. exact (Qlt_irrefl 0 Hlpos). }
    assert (Hrs : sg / k / (sl / k) == 0).
    { rewrite Hg. unfold Qdiv. ring. }
    cbn [fdiv] in Hrsi. rewrite Hl0 in Hrsi. cbn [fadd fdiv] in Hrsi.
    set (rs := sg / k / (sl / k)) in *.
    assert (Hone : Qeqb (1 + rs) 0 = false).
    { destruct (Qeqb (1 + rs) 0) eqn:E; [|reflexivity].
      apply Qeqb_iff in E. rewrite Hrs in E. discriminate E. }
    rewrite Hone in Hrsi. cbn [fsub fneg fadd] in Hrsi.
    assert (Hzero : 100 + - (100 / (1 + rs)) == 0).
    { rewrite Hrs. reflexivity. }
    split.
    + eexists. split; [exact Hrsi|exact Hzero].
    + unfold evaluate_signals. rewrite Hshort. unfold signal_rsi. rewrite Hrsi.
      cbn [rbind fge fle].
      assert (H75 : Qleb 75 (100 + - (100 / (1 + rs))) = false).
      { apply Qleb_false_iff. rewrite Hzero. reflexivity. }
      assert (H25 : Qleb (100 + - (100 / (1 + rs))) 25 = true).
      { apply Qleb_iff. rewrite Hzero. discriminate. }
      rewrite H75, H25. reflexivity.
Qed.

Lemma trend_is_faded_witness :
  evaluate_signals Samples.rising
  = Ok (put ("SELL"%string, base_quantity) Samples.rising)
  /\ evaluate_signals Samples.falling
     = Ok (put ("BUY"%string, base_quantity) Samples.falling).
Proof.
  split.
  - refine (proj2 (proj1 (trend_is_faded Samples.rising 46
                            (map inject_Z (map Z.of_nat (seq 1 45)))
                            (map inject_Z (map Z.of_nat (seq 47 14))) _ _ _) _)).
    + vm_compute. lia.
    + reflexivity.
    + reflexivity.
    + vm_compute. repeat split; reflexivity.
  - refine (proj2 (proj2 (trend_is_faded Samples.falling 54
                            (map (fun i => inject_Z (100 - Z.of_nat i)) (seq 1 45))
                            (map (fun i => inject_Z (100 - Z.of_nat i)) (seq 47 14))
                            _ _ _) _)).
    + vm_compute. lia.
    + reflexivity.
    + reflexivity.
    + vm_compute. repeat split; reflexivity.
Defined.

End SignalExtras.

(** ** The PnL feed of the account gateway *)

Module FeedExtras.
Import AccountFeed.





Lemma parse_complete (entries : list (string * string * Q)) :
  parse_pnl_info (complete entries) = Some (rows_of entries).
Proof.
  induction entries as [|e entries IH]; [reflexivity|].
  cbn [complete map parse_pnl_info asset balance crossUnPnl].
  fold (complete entries). rewrite IH. reflexivity.
Qed.

Lemma to_numeric_rows (entries : list (string * string * Q)) :
  to_numeric (map row_pnl (rows_of entries)) = Some (map snd entries).
Proof.
  induction entries as [|e entries IH]; [reflexivity|].
  cbn [rows_of map row_pnl to_numeric]. fold (rows_of entries). now rewrite IH.
Qed.

Lemma pnl_sum_rows (entries : list (string * string * Q)) :
  entries <> [] -> pnl_sum (rows_of entries) = Some (Qsum (map snd entries)).
Proof.
  intros Hne. unfold pnl_sum. rewrite to_numeric_rows.
  destruct entries; [contradiction|reflexivity].
Qed.

Lemma for_each_stops {A : Type} (before later : list A) (bad : A) (body : A -> M unit)
    (env : Env) (tr tr1 tr2 : Trace) (e : Exn) :
  for_each before body env tr = (Val tt, tr1) ->
  body bad env tr1 = (Exc e, tr2) ->
  for_each (before ++ bad :: later) body env tr = (Exc e, tr2).
Proof.
  revert tr. induction before as [|a before IH]; intros tr Hbefore Hbad.
  - cbn [for_each] in Hbefore. unfold ret in Hbefore. injection Hbefore as <-.
    cbn [app for_each]. unfold bind. now rewrite Hbad.
  - cbn [app for_each] in *. unfold bind in *.
    destruct (body a env tr) as [[[]|e0|] t0]; try discriminate Hbefore.
    now apply IH.
Qed.

Lemma complete_answer_run (self : t) (entries : list (string * string * Q))
    (env : Env) (tr : Trace) :
  entries <> [] ->
  let rows := rows_of entries in
  let updated :=
    set_realized_pnl (set_account_pnl_info self rows) (Qsum (map snd entries)) in
  (forall tr' : Trace,
     for_each (accountpnl_callbacks self) (fun callback => callback rows) env tr
     = (Val tt, tr') ->
     fetch_and_notify_pnl self (Ok (complete entries)) env tr = (Val updated, tr'))
  /\ (forall (e : Exn) (tr' : Trace),
        for_each (accountpnl_callbacks self) (fun callback => callback rows) env tr
        = (Exc e, tr') ->
        fetch_and_notify_pnl self (Ok (complete entries)) env tr
        = (Val updated, tr' ++ [Log ERROR "Error fetching account PnL data"])).
Proof.
  intros Hne rows updated.
  unfold fetch_and_notify_pnl. rewrite parse_complete, (pnl_sum_rows entries Hne).
  fold rows. cbv zeta. fold updated. unfold try_except, bind.
  split.
  - intros tr' Hrun. now rewrite Hrun.
  - intros e tr' Hrun. now rewrite Hrun.
Qed.

(** X23.  An answer in which every asset carries its keys and a number
    sets the realized PnL to the sum of the [crossUnPnl] values, whether
    the callbacks return or one of them raises; in the second case the
    error is logged and the call still returns. *)
Theorem complete_balance_answer_updates (self : t) (entries : list (string * string * Q))
    (env : Env) (tr : Trace) :
  entries <> [] ->
  let rows := rows_of entries in
  let updated :=
    set_realized_pnl (set_account_pnl_info self rows) (Qsum (map snd entries)) in
  realized_pnl updated = Qsum (map snd entries)
  /\ (forall tr' : Trace,
        for_each (accountpnl_callbacks self) (fun callback => callback rows) env tr
        = (Val tt, tr') ->
        fetch_and_notify_pnl self (Ok (complete entries)) env tr = (Val updated, tr'))
  /\ (forall (e : Exn) (tr' : Trace),
        for_each (accountpnl_callbacks self) (fun callback => callback rows) env tr
        = (Exc e, tr') ->
        fetch_and_notify_pnl self (Ok (complete entries)) env tr
        = (Val updated, tr' ++ [Log ERROR "Error fetching account PnL data"])).
Proof.
  intros Hne rows updated. split; [reflexivity|].
  exact (complete_answer_run self entries env tr Hne).
Qed.

Lemma complete_balance_answer_updates_witness :
  fetch_and_notify_pnl
    {| gateway := AccountGateWay.init; account_pnl_info := [];
       accountpnl_callbacks := [fun _ => logging INFO "notified"] |}
    (Ok (complete [("USDT"%string, "100.0"%string, 7); ("BNB"%string, "0.0"%string, -2)]))
    (ExchangeSamples.exchange (Ok []) ExchangeSamples.accepted 0) []
  = (Val (set_realized_pnl
            (set_account_pnl_info
               {| gateway := AccountGateWay.init; account_pnl_info := [];
                  accountpnl_callbacks := [fun _ => logging INFO "notified"] |}
               (rows_of [("USDT"%string, "100.0"%string, 7);
                         ("BNB"%string, "0.0"%string, -2)]))
            (Qsum [7; -2])),
     [Log INFO "notified"]).
Proof.
  refine (proj1 (proj2 (complete_balance_answer_updates _
                          [("USDT"%string, "100.0"%string, 7);
                           ("BNB"%string, "0.0"%string, -2)] _ [] _)) _ _).
  - discriminate.
  - reflexivity.
Defined.

(** X24.  Callbacks are notified in the order of their registration, and
    one that raises keeps those registered after it from being notified:
    the call logs the error and returns with the realized PnL updated, and
    nothing of the later callbacks is on the trace. *)
Theorem raising_callback_silences_later_ones (self : t)
    (entries : list (string * string * Q)) (before later : list Callback)
    (bad : Callback) (env : Env) (tr tr1 tr2 : Trace) (e : Exn) :
  entries <> [] ->
  accountpnl_callbacks self = before ++ bad :: later ->
  for_each before (fun callback => callback (rows_of entries)) env tr = (Val tt, tr1) ->
  bad (rows_of entries) env tr1 = (Exc e, tr2) ->
  fetch_and_notify_pnl self (Ok (complete entries)) env tr
  = (Val (set_realized_pnl (set_account_pnl_info self (rows_of entries))
            (Qsum (map snd entries))),
     tr2 ++ [Log ERROR "Error fetching account PnL data"]).
Proof.
  intros Hne Hcb Hbefore Hbad.
  apply (proj2 (complete_answer_run self entries env tr Hne) e).
  rewrite Hcb.
  exact (for_each_stops before later bad _ env tr tr1 tr2 e Hbefore Hbad).
Qed.

Lemma raising_callback_silences_later_ones_witness :
  fetch_and_notify_pnl
    {| gateway := AccountGateWay.init; account_pnl_info := [];
       accountpnl_callbacks := [ (fun _ => logging INFO "first");
                                 (fun _ => raise ValueError);
                                 (fun _ => logging INFO "third") ] |}
    (Ok (complete [("USDT"%string, "100.0"%string, 7)]))
    (ExchangeSamples.exchange (Ok []) ExchangeSamples.accepted 0) []
  = (Val (set_realized_pnl
            (set_account_pnl_info
               {| gateway := AccountGateWay.init; account_pnl_info := [];
                  accountpnl_callbacks := [ (fun _ => logging INFO "first");
                                            (fun _ => raise ValueError);
                                            (fun _ => logging INFO "third") ] |}
               (rows_of [("USDT"%string, "100.0"%string, 7)]))
            (Qsum [7])),
     [Log INFO "first"] ++ [Log ERROR "Error fetching account PnL data"]).
Proof.
  apply (raising_callback_silences_later_ones _ [("USDT"%string, "100.0"%string, 7)]
           [fun _ => logging INFO "first"] [fun _ => logging INFO "third"]
           (fun _ => raise ValueError) _ [] [Log INFO "first"] [Log INFO "first"]
           ValueError).
  - discriminate.
  - reflexivity.
  - reflexivity.
  - reflexivity.
Defined.

End FeedExtras.

(** ** The position callback *)

Module PositionExtras.
Import PositionCallback.



End PositionExtras.

(** ** The candle frame *)

Module CandleExtras.
Import HistoricalCandle.

Lemma drop_duplicates_from_in (rows seen : list Kline) (r : Kline) :
  In r (drop_duplicates_from seen rows) -> In r rows.
Proof.
  revert seen. induction rows as [|x rows IH]; intros seen; cbn [drop_duplicates_from].
  - intros [].
  - destruct (existsb (same_row x) seen).
    + intros H. right. exact (IH _ H).
    + intros [<- | H]; [now left|right; exact (IH _ H)].
Qed.

Lemma drop_duplicates_from_fresh (rows seen : list Kline) (r s : Kline) :
  In r (drop_duplicates_from seen rows) -> In s seen -> same_row r s = false.
Proof.
  revert seen. induction rows as [|x rows IH]; intros seen; cbn [drop_duplicates_from].
  - intros [].
  - destruct (existsb (same_row x) seen) eqn:E.
    + apply IH.
    + intros [<- | H] Hs.
      * destruct (same_row x s) eqn:Ex; [|reflexivity].
        assert (Hex : existsb (same_row x) seen = true)
          by (apply existsb_exists; now exists s).
        congruence.
      * apply (IH (x :: seen) H). now right.
Qed.

Lemma drop_duplicates_from_distinct (rows seen : list Kline) :
  distinct_rows (drop_duplicates_from seen rows).
Proof.
  revert seen. induction rows as [|x rows IH]; intros seen; cbn [drop_duplicates_from].
  - constructor.
  - destruct (existsb (same_row x) seen); [apply IH|].
    constructor; [|apply IH].
    apply Forall_forall. intros r Hr.
    apply (drop_duplicates_from_fresh rows (x :: seen) r x Hr). now left.
Qed.

Lemma distinct_rows_skipn (n : nat) (rows : list Kline) :
  distinct_rows rows -> distinct_rows (skipn n rows).
Proof.
  revert rows. induction n as [|n IH]; intros rows Hd; [exact Hd|].
  destruct rows as [|x rows]; [exact Hd|]. cbn [skipn]. apply IH.
  now inversion Hd.
Qed.

Lemma fetch_cases (window_size : nat) (klines : list Kline) :
  fetch_latest_klines window_size klines = drop_duplicates klines
  \/ ((0 < window_size)%nat
      /\ (window_size < length (drop_duplicates klines))%nat
      /\ fetch_latest_klines window_size klines
         = skipn (length (drop_duplicates klines) - window_size) (drop_duplicates klines)).
Proof.
  unfold fetch_latest_klines. cbv zeta.
  destruct (window_size <? length (drop_duplicates klines))%nat eqn:E; [|now left].
  apply Nat.ltb_lt in E.
  destruct window_size as [|w]; [now left|].
  right. split; [lia|]. split; [exact E|reflexivity].
Qed.

(** X26.  The frame [fetch_latest_klines] returns holds only rows the
    exchange sent, no row twice, and, for a window size above 0, at most
    that many rows; a window size of 0 keeps every distinct row. *)
Theorem candle_frame_is_a_bounded_window (window_size : nat) (klines : list Kline) :
  (forall r : Kline, In r (fetch_latest_klines window_size klines) -> In r klines)
  /\ distinct_rows (fetch_latest_klines window_size klines)
  /\ ((0 < window_size)%nat ->
      (length (fetch_latest_klines window_size klines) <= window_size)%nat)
  /\ fetch_latest_klines 0 klines = drop_duplicates klines.
Proof.
  split; [|split; [|split]].
  - intros r Hr.
    destruct (fetch_cases window_size klines) as [-> | (_ & _ & ->)] in Hr.
    + exact (drop_duplicates_from_in klines [] r Hr).
    + apply (drop_duplicates_from_in klines [] r).
      exact (SignalExtras.in_skipn_list _ _ r Hr).
  - destruct (fetch_cases window_size klines) as [-> | (_ & _ & ->)].
    + apply drop_duplicates_from_distinct.
    + apply distinct_rows_skipn, drop_duplicates_from_distinct.
  - intros Hpos. unfold fetch_latest_klines. cbv zeta.
    destruct (window_size <? length (drop_duplicates klines))%nat eqn:E.
    + destruct window_size as [|w]; [lia|].
      cbn [iloc_tail]. unfold lastn. rewrite length_skipn.
      apply Nat.ltb_lt in E. lia.
    + now apply Nat.ltb_ge in E.
  - destruct (fetch_cases 0 klines) as [H | (H & _)]; [exact H|lia].
Qed.

Lemma candle_frame_is_a_bounded_window_witness :
  (length (fetch_latest_klines 2
             [ mkKline 1 10 11 9 10 5 2 50 3 1 1 "0";
               mkKline 1 10 11 9 10 5 2 50 3 1 1 "0";
               mkKline 2 10 12 9 11 6 3 60 4 1 1 "0";
               mkKline 3 11 12 10 12 7 4 70 5 1 1 "0" ]) <= 2)%nat.
Proof.
  apply candle_frame_is_a_bounded_window. lia.
Defined.

Lemma fetch_length_bound (window_size : nat) (klines : list Kline) :
  (0 < window_size)%nat ->
  (length (fetch_latest_klines window_size klines) <= window_size)%nat.
Proof.
  intros Hpos.
  destruct (fetch_cases window_size klines) as [E | (_ & Hlt & ->)].
  - rewrite E. unfold fetch_latest_klines in E. cbv zeta in E.
    destruct (window_size <? length (drop_duplicates klines))%nat eqn:Hcmp.
    + destruct window_size as [|w]; [lia|].
      cbn [iloc_tail] in E. apply (f_equal (@length _)) in E.
      unfold lastn in E. rewrite length_skipn in E. apply Nat.ltb_lt in Hcmp. lia.
    + now apply Nat.ltb_ge in Hcmp.
  - rewrite length_skipn. lia.
Qed.

(** X27.  A tracker whose window size is below 60 (and above 0) never lets
    the trading loop trade: on the frame it returns nothing is queued, and
    the turn waits in [generate_signal] for good, with the candle request
    as its only request. *)
Theorem small_window_never_trades (window_size fuel : nat) (klines : list Kline)
    (order_manager : OrderManagementSystem.t) (symbol_ : string)
    (max_limit_single_pair : Q) (env : Env) (tr : Trace) :
  (0 < window_size < 60)%nat ->
  klines_reply env tr = Ok (map candle_of (fetch_latest_klines window_size klines)) ->
  Main.trading_iteration fuel order_manager symbol_ max_limit_single_pair env tr
  = (Hang, tr ++ [Call get_klines]).
Proof.
  intros [Hpos Hsmall] Hk.
  pose proof (fetch_length_bound window_size klines Hpos) as Hlen.
  unfold Main.trading_iteration, try_except, bind, request. rewrite Hk.
  unfold lift, SignalGenerator.evaluate_signals.
  cbn [SignalGenerator.candles SignalGenerator.init]. rewrite length_map.
  assert (Hshort : (length (fetch_latest_klines window_size klines) <? 60)%nat = true)
    by (apply Nat.ltb_lt; lia).
  rewrite Hshort. reflexivity.
Qed.

Lemma small_window_never_trades_witness :
  Main.trading_iteration 5 RiskSamples.oms "ETHUSDT" (3 # 2)
    {| open_orders_reply := fun _ _ => Ok [];
       cancel_reply := fun _ _ _ => Raise (BinanceAPIException (-2011));
       create_reply := fun _ _ => ExchangeSamples.accepted;
       klines_reply := fun _ =>
         Ok (map candle_of
               (fetch_latest_klines 30
                  [ mkKline 1 10 11 9 10 5 2 50 3 1 1 "0";
                    mkKline 2 10 12 9 11 6 3 60 4 1 1 "0" ]));
       global_position := fun _ => 0;
       order_book := fun _ => Some ExchangeSamples.touch |} []
  = (Hang, [] ++ [Call get_klines]).
Proof.
  apply (small_window_never_trades 30 5
           [ mkKline 1 10 11 9 10 5 2 50 3 1 1 "0";
             mkKline 2 10 12 9 11 6 3 60 4 1 1 "0" ]).
  - lia.
  - reflexivity.
Defined.

End CandleExtras.
